(** * Contentomation: the search / categorize / project pipeline of [main.py]

    A shallow embedding of the three pipeline stages of [src/main.py]
    ([web_search], [grok_process_raw_data], [generate_outputs]) and of the
    [/run_cycle] handler, followed by the properties of the specification
    that concern them.

    Python values are dynamically typed, so the embedding works on a type
    [value] of the objects that [json.loads] can produce; a failing
    operation returns [Raise] with the exception class.  The collaborators
    (search provider, completion service, webhook, request body) are fields
    of an environment record and every call to one is recorded as an event. *)

From Stdlib Require Import List String Ascii ZArith Bool Lia SpecFloat.
Import ListNotations.

Local Open Scope string_scope.
Local Open Scope list_scope.
Local Open Scope Z_scope.

(** ** Exceptions and results *)

(** The exception classes the pipeline can meet.  [External] stands for
    whatever a collaborator raises (network error, HTTP error, decode error);
    all of them derive from [Exception]. *)
Inductive exn : Type :=
| AttributeError
| TypeError
| KeyError
| External (msg : string).

Inductive result (A : Type) : Type :=
| Ok (a : A)
| Raise (e : exn).

Arguments Ok {A} a.
Arguments Raise {A} e.

Definition rbind {A B : Type} (r : result A) (k : A -> result B) : result B :=
  match r with
  | Ok a => k a
  | Raise e => Raise e
  end.

Notation "'let?' x ':=' r 'in' k" := (rbind r (fun x => k))
  (at level 10, x pattern, r at level 100, k at level 200).

(** [[f x for x in l]], stopping at the first element on which [f] raises. *)
Fixpoint mapM {A B : Type} (f : A -> result B) (l : list A) : result (list B) :=
  match l with
  | [] => Ok []
  | x :: l' =>
      let? y := f x in
      let? ys := mapM f l' in
      Ok (y :: ys)
  end.

(** [[x for x in l if p x]], stopping at the first element on which [p] raises. *)
Fixpoint filterM {A : Type} (p : A -> result bool) (l : list A) : result (list A) :=
  match l with
  | [] => Ok []
  | x :: l' =>
      let? b := p x in
      let? ys := filterM p l' in
      Ok (if b then x :: ys else ys)
  end.

(** A [for] loop threading an accumulator. *)
Fixpoint foldM {A S : Type} (f : S -> A -> result S) (s : S) (l : list A) : result S :=
  match l with
  | [] => Ok s
  | x :: l' =>
      let? s' := f s x in
      foldM f s' l'
  end.

(** ** Python values *)

(** The objects [json.loads] builds: [None], [bool], [int], [float], [str],
    [list] and [dict].  A [dict] is the list of its entries in insertion
    order (Python dicts iterate in that order). *)
#[warnings="-register-all"]
Inductive value : Type :=
| VNone
| VBool (b : bool)
| VInt (z : Z)
| VFloat (f : spec_float)
| VStr (s : string)
| VList (l : list value)
| VDict (d : list (value * value)).

Definition dict : Type := list (value * value).

(** *** Hashing and key equality

    Dictionary keys are compared with [==] after hashing.  [hkey] is a
    normal form of the hashable values under that comparison: [True == 1 ==
    1.0] share a normal form, as do [0], [0.0], [-0.0] and [False].  Lists
    and dicts are unhashable. *)
Inductive hkey : Type :=
| HNone
| HStr (s : string)
| HInt (z : Z)
| HFrac (neg : bool) (m : positive) (e : Z)
| HInf (neg : bool)
| HNaN.

(** [m * 2^e] with the factors of two moved from [m] into the exponent. *)
Fixpoint strip_twos (m : positive) (e : Z) : positive * Z :=
  match m with
  | xO m' => strip_twos m' (e + 1)
  | _ => (m, e)
  end.

Definition hkey_of_float (f : spec_float) : hkey :=
  match f with
  | S754_zero _ => HInt 0
  | S754_infinity s => HInf s
  | S754_nan => HNaN
  | S754_finite s m e =>
      let '(m', e') := strip_twos m e in
      if 0 <=? e'
      then HInt ((if s then -1 else 1) * (Z.pos m' * 2 ^ e'))
      else HFrac s m' e'
  end.

(** [hash(v)]: [None] stands for [TypeError: unhashable type].  The decoder
    returns one shared [nan] object, which a dict finds again by identity. *)
Definition hash_key (v : value) : option hkey :=
  match v with
  | VNone => Some HNone
  | VBool b => Some (HInt (if b then 1 else 0))
  | VInt z => Some (HInt z)
  | VFloat f => Some (hkey_of_float f)
  | VStr s => Some (HStr s)
  | VList _ => None
  | VDict _ => None
  end.

Definition hkey_eq_dec (a b : hkey) : {a = b} + {a <> b}.
Proof.
  decide equality;
    try apply string_dec; try apply Z.eq_dec;
    try apply Pos.eq_dec; try apply bool_dec.
Defined.

Definition hkey_eqb (a b : hkey) : bool :=
  if hkey_eq_dec a b then true else false.

(** Does the stored key [k] answer a lookup for the hash key [h]? *)
Definition key_matches (h : hkey) (k : value) : bool :=
  match hash_key k with
  | Some h' => hkey_eqb h h'
  | None => false
  end.

(** *** Dictionaries *)

Fixpoint dict_find (h : hkey) (d : dict) : option value :=
  match d with
  | [] => None
  | (k, v) :: d' => if key_matches h k then Some v else dict_find h d'
  end.

(** [d[k] = v] on an already hashed key: an existing entry keeps its key and
    its place and takes the new value, a new key is appended. *)
Fixpoint dict_store (h : hkey) (k v : value) (d : dict) : dict :=
  match d with
  | [] => [(k, v)]
  | (k', v') :: d' =>
      if key_matches h k' then (k', v) :: d'
      else (k', v') :: dict_store h k v d'
  end.

(** [k in d] *)
Definition dict_contains (d : dict) (k : value) : result bool :=
  match hash_key k with
  | Some h => Ok (match dict_find h d with Some _ => true | None => false end)
  | None => Raise TypeError
  end.

(** [d[k]] *)
Definition dict_getitem (d : dict) (k : value) : result value :=
  match hash_key k with
  | Some h => match dict_find h d with Some v => Ok v | None => Raise KeyError end
  | None => Raise TypeError
  end.

(** [d[k] = v] *)
Definition dict_setitem (d : dict) (k v : value) : result dict :=
  match hash_key k with
  | Some h => Ok (dict_store h k v d)
  | None => Raise TypeError
  end.

(** *** Strings

    A character is an [ascii]; [lower] maps [A]..[Z] to [a]..[z] and leaves
    every other character alone, which is what [str.lower] does to the
    characters that can take part in a match of ['tool']. *)
Definition lower_ascii (c : ascii) : ascii :=
  let n := nat_of_ascii c in
  if (Nat.leb 65 n && Nat.leb n 90)%bool then ascii_of_nat (n + 32)%nat else c.

Fixpoint lower (s : string) : string :=
  match s with
  | EmptyString => EmptyString
  | String c s' => String (lower_ascii c) (lower s')
  end.

(** [pat in s] for two strings: [pat] starts at some position of [s]. *)
Fixpoint str_in (pat s : string) : bool :=
  if String.prefix pat s then true
  else match s with
       | EmptyString => false
       | String _ s' => str_in pat s'
       end.

(** The characters of a string, each as a one-character string. *)
Fixpoint chars (s : string) : list value :=
  match s with
  | EmptyString => []
  | String c s' => VStr (String c EmptyString) :: chars s'
  end.

(** *** Operations on arbitrary objects *)

(** Truth value of an object, as [if x:] and [not x] take it. *)
Definition truthy (v : value) : bool :=
  match v with
  | VNone => false
  | VBool b => b
  | VInt z => negb (z =? 0)
  | VFloat (S754_zero _) => false
  | VFloat _ => true
  | VStr s => negb (String.eqb s EmptyString)
  | VList l => match l with [] => false | _ => true end
  | VDict d => match d with [] => false | _ => true end
  end.

(** [for x in v]: a list yields its elements, a dict its keys, a string its
    characters; nothing else is iterable. *)
Definition py_iter (v : value) : result (list value) :=
  match v with
  | VList l => Ok l
  | VDict d => Ok (map fst d)
  | VStr s => Ok (chars s)
  | _ => Raise TypeError
  end.

(** [v.values()] *)
Definition py_values (v : value) : result (list value) :=
  match v with
  | VDict d => Ok (map snd d)
  | _ => Raise AttributeError
  end.

(** [v.items()] *)
Definition py_items (v : value) : result (list (value * value)) :=
  match v with
  | VDict d => Ok d
  | _ => Raise AttributeError
  end.

(** [v[key]] for a string literal [key]: only a dict can be subscripted by
    a string. *)
Definition py_getitem (v : value) (key : string) : result value :=
  match v with
  | VDict d => dict_getitem d (VStr key)
  | _ => Raise TypeError
  end.

(** [v.get(key, default)] *)
Definition py_get (v : value) (key : string) (default : value) : result value :=
  match v with
  | VDict d =>
      Ok (match dict_find (HStr key) d with Some x => x | None => default end)
  | _ => Raise AttributeError
  end.

(** [v[:n]]: a list or a string is sliced; subscripting a dict by a slice
    raises ([TypeError], [KeyError] from Python 3.12 on), like subscripting
    any other object. *)
Definition py_slice_to (n : nat) (v : value) : result value :=
  match v with
  | VList l => Ok (VList (firstn n l))
  | VStr s => Ok (VStr (String.substring 0 n s))
  | _ => Raise TypeError
  end.

(** [v.lower()] *)
Definition py_lower (v : value) : result string :=
  match v with
  | VStr s => Ok (lower s)
  | _ => Raise AttributeError
  end.

(** ** Effects

    A computation returns its result together with the events it caused, in
    order.  An exception keeps the events that happened before it. *)
Inductive level : Type := INFO | ERROR.

Inductive event : Type :=
| EvSearch (query : string) (max_results : Z)
| EvChat (prompt : string)
| EvPost (url : string) (payload : value)
| EvLog (lvl : level) (msg : string).

Definition M (A : Type) : Type := (result A * list event)%type.

Definition ret {A : Type} (a : A) : M A := (Ok a, []).

Definition bind {A B : Type} (m : M A) (k : A -> M B) : M B :=
  match m with
  | (Ok a, t) => let '(r, t') := k a in (r, t ++ t')
  | (Raise e, t) => (Raise e, t)
  end.

Definition lift {A : Type} (r : result A) : M A := (r, []).

Definition emit (ev : event) : M unit := (Ok tt, [ev]).

(** [try: body except Exception as e: handler e] *)
Definition try_except {A : Type} (body : M A) (handler : exn -> M A) : M A :=
  match body with
  | (Ok a, t) => (Ok a, t)
  | (Raise e, t) => let '(r, t') := handler e in (r, t ++ t')
  end.

Notation "x <- m ;; k" := (bind m (fun x => k))
  (at level 61, m at next level, right associativity).
Notation "m ;;; k" := (bind m (fun _ => k))
  (at level 61, right associativity).

Definition logging_info (msg : string) : M unit := emit (EvLog INFO msg).
Definition logging_error (msg : string) : M unit := emit (EvLog ERROR msg).

(** ** The environment of the process *)

(** What the [try] body of [grok_process_raw_data] sees of the completion
    service: the request, or reading [choices[0].message.content], raises;
    or the content is text on which [json.loads] raises; or it is text that
    [json.loads] decodes to a value. *)
Inductive completion : Type :=
| CompletionRaises (e : exn)
| CompletionNotJSON
| CompletionJSON (v : value).

(** The module-level configuration, the collaborators and the library
    calls whose outcome the pipeline depends on.  [json_dumps] is
    [json.dumps] on the hit list: it gives the text, or raises on a list it
    cannot serialize.  The completion service answers the user prompt it is
    sent.  [request_get_json] is what [request.get_json()] gives for the request
    being served, and [jsonify] tells whether the web framework can
    serialize a bundle (it sorts the keys of every dict, which fails on keys
    of mixed types). *)
Record env : Type := {
  ZAPIER_WEBHOOK_URL : option string;
  ddgs_text : string -> Z -> result (list value);
  json_dumps : list value -> result string;
  chat_completions_create : string -> completion;
  requests_post : string -> value -> result unit;
  request_get_json : result value;
  jsonify : value -> result unit
}.

(** ** The pipeline *)

Section Pipeline.

Variable E : env.

(** *** [web_search] *)

(** [{'title': r['title'], 'snippet': r.get('body', r.get('snippet', ''))}] *)
Definition normalize_record (r : value) : result value :=
  let? title := py_getitem r "title" in
  let? fallback_snippet := py_get r "snippet" (VStr "") in
  let? snippet := py_get r "body" fallback_snippet in
  Ok (VDict [(VStr "title", title); (VStr "snippet", snippet)]).

Definition web_search (query : string) (num_results : Z) : M (list value) :=
  logging_info ("Executing web search for query: " ++ query)%string ;;;
  try_except
    (emit (EvSearch query num_results) ;;;
     results <- lift (ddgs_text E query num_results) ;;
     lift (mapM normalize_record results))
    (fun e => logging_error "Web search failed" ;;; ret []).

(** *** [grok_process_raw_data] *)

Definition fallback : value :=
  VDict [(VStr "productivity", VList []);
         (VStr "health", VList []);
         (VStr "creativity", VList [])].

(** [json.loads(response.choices[0].message.content)] *)
Definition json_loads_content (c : completion) : result value :=
  match c with
  | CompletionRaises e => Raise e
  | CompletionNotJSON => Raise (External "JSONDecodeError")
  | CompletionJSON v => Ok v
  end.

(** The user prompt of lines 58 to 62, around the serialized hits. *)
Definition user_prompt (serialized : string) : string :=
  ("Categorize the following search results into 'productivity', 'health', 'creativity'. "
   ++ "Filter for uniqueness. Output as JSON: {'productivity': [list of {'title': str, 'snippet': str}], ...} "
   ++ "Data: " ++ serialized)%string.

(** The prompt is built before the [try]: an exception of [json.dumps]
    leaves the function, and the service is not called. *)
Definition grok_process_raw_data (raw_data : list value) : M value :=
  if negb (truthy (VList raw_data)) then ret fallback
  else
    serialized <- lift (json_dumps E raw_data) ;;
    let prompt := user_prompt serialized in
    try_except
      (emit (EvChat prompt) ;;;
       categorized <- lift (json_loads_content (chat_completions_create E prompt)) ;;
       ret categorized)
      (fun e => logging_error "Grok processing failed" ;;; ret fallback).

(** *** [generate_outputs] *)

(** [h['snippet']] and [h['title']] *)
Definition snippet_of (h : value) : result value := py_getitem h "snippet".
Definition title_of (h : value) : result value := py_getitem h "title".

(** [[h for hacks in categorized.values() for h in hacks]] *)
Definition all_hacks (categorized : value) : result (list value) :=
  let? buckets := py_values categorized in
  let? per_bucket := mapM py_iter buckets in
  Ok (List.concat per_bucket).

(** ['tool' in h['snippet'].lower()] *)
Definition mentions_tool (h : value) : result bool :=
  let? s := snippet_of h in
  let? low := py_lower s in
  Ok (str_in "tool" low).

(** [[h for hacks in categorized.values() for h in hacks if 'tool' in ...]] *)
Definition tool_mentions (categorized : value) : result (list value) :=
  let? buckets := py_values categorized in
  let? per_bucket :=
    mapM (fun hacks => let? hs := py_iter hacks in filterM mentions_tool hs) buckets in
  Ok (List.concat per_bucket).

(** [{k: [h['snippet'] for h in v] for k, v in categorized.items()}] *)
Definition base_knowledge (categorized : value) : result dict :=
  let? items := py_items categorized in
  foldM (fun acc kv =>
           let? hs := py_iter (snd kv) in
           let? snippets := mapM snippet_of hs in
           dict_setitem acc (fst kv) (VList snippets))
        [] items.

(** The body of the loop over the profiles.  The right-hand side
    [bot_knowledge[interest]] is evaluated before [profile['id']]; the new
    entry is the very list object of the old one, which nothing mutates. *)
Definition personalize_step (bot_knowledge : dict) (profile : value) : result dict :=
  let? interest := py_get profile "interest" VNone in
  let? found := dict_contains bot_knowledge interest in
  if found then
    let? knowledge := dict_getitem bot_knowledge interest in
    let? id := py_getitem profile "id" in
    dict_setitem bot_knowledge id knowledge
  else Ok bot_knowledge.

(** [if user_profiles: for profile in user_profiles: ...] *)
Definition personalize (bot_knowledge : dict) (user_profiles : value) : result dict :=
  if truthy user_profiles then
    let? profiles := py_iter user_profiles in
    foldM personalize_step bot_knowledge profiles
  else Ok bot_knowledge.

(** [{'theme': k, 'materials': [h['snippet'] for h in v[:2]]}] *)
Definition session (kv : value * value) : result value :=
  let? head := py_slice_to 2 (snd kv) in
  let? hs := py_iter head in
  let? materials := mapM snippet_of hs in
  Ok (VDict [(VStr "theme", fst kv); (VStr "materials", VList materials)]).

Definition workshop_sessions (categorized : value) : result (list value) :=
  let? items := py_items categorized in
  mapM session items.

(** Lines 84 to 107: the five views, computed in this order. *)
Definition build_outputs (categorized : value) (raw_data : list value)
    (user_profiles : value) : result value :=
  let? hacks := all_hacks categorized in
  let? content := mapM snippet_of (firstn 5 hacks) in
  let? tools := tool_mentions categorized in
  let? topics := mapM title_of (firstn 3 raw_data) in
  let? base := base_knowledge categorized in
  let? bot_knowledge := personalize base user_profiles in
  let? sessions := workshop_sessions categorized in
  Ok (VDict
        [(VStr "newsletter", VDict [(VStr "content", VList content)]);
         (VStr "tool_vault", VDict [(VStr "updates", VList tools)]);
         (VStr "forum", VDict [(VStr "topics", VList topics)]);
         (VStr "coaching_bot", VDict [(VStr "knowledge_base", VDict bot_knowledge)]);
         (VStr "workshops", VDict [(VStr "sessions", VList sessions)])]).

(** Lines 110 to 115: the optional webhook call. *)
Definition send_to_zapier (outputs : value) : M unit :=
  match ZAPIER_WEBHOOK_URL E with
  | Some url =>
      if truthy (VStr url) then
        try_except
          (emit (EvPost url outputs) ;;;
           lift (requests_post E url outputs) ;;;
           logging_info "Outputs sent to Zapier webhook successfully")
          (fun e => logging_error "Failed to send to Zapier")
      else ret tt
  | None => ret tt
  end.

Definition generate_outputs (categorized : value) (raw_data : list value)
    (user_profiles : value) : M value :=
  outputs <- lift (build_outputs categorized raw_data user_profiles) ;;
  send_to_zapier outputs ;;;
  ret outputs.

(** *** [run_automation_cycle] *)

(** What the handler returns: [jsonify(outputs), 200] or
    [jsonify({'error': str(e)}), 500]. *)
Inductive response : Type :=
| Success (outputs : value)
| Failure (e : exn).

Definition QUERY : string :=
  "latest AI life hacks for productivity health creativity site:reddit.com OR x.com".

Definition run_automation_cycle : M response :=
  try_except
    (data <- lift (request_get_json E) ;;
     user_profiles <- lift (py_get data "user_profiles" (VList [])) ;;
     raw_data <- web_search QUERY 10 ;;
     categorized <- grok_process_raw_data raw_data ;;
     outputs <- generate_outputs categorized raw_data user_profiles ;;
     logging_info "Automation cycle completed successfully" ;;;
     lift (jsonify E outputs) ;;;
     ret (Success outputs))
    (fun e => logging_error "Error in automation cycle" ;;; ret (Failure e)).

End Pipeline.

(** ** The data model of the specification

    The typed records of the specification and their Python form.  The
    properties below quantify over these and run the code on their Python
    form. *)

Record SearchHit : Type := { title : string; snippet : string }.

Definition hit_value (h : SearchHit) : value :=
  VDict [(VStr "title", VStr (title h)); (VStr "snippet", VStr (snippet h))].

(** A mapping from bucket names to hit sequences, in key order. *)
Definition CategorizedResult : Type := list (string * list SearchHit).

Definition bucket_value (hs : list SearchHit) : value := VList (map hit_value hs).

Definition categorized_value (c : CategorizedResult) : value :=
  VDict (map (fun kv => (VStr (fst kv), bucket_value (snd kv))) c).

Record UserProfile : Type := { profile_id : string; interest : string }.

Definition profile_value (p : UserProfile) : value :=
  VDict [(VStr "id", VStr (profile_id p)); (VStr "interest", VStr (interest p))].

Definition profiles_value (ps : list UserProfile) : value :=
  VList (map profile_value ps).

(** The three fixed labels, in the order of the classification prompt. *)
Definition LABELS : list string := ["productivity"; "health"; "creativity"].

(** The keys of a Python dict, in order. *)
Definition keys (d : dict) : list value := map fst d.

(** [outputs[view][field]] *)
Definition view (outputs : value) (name field : string) : result value :=
  let? v := py_getitem outputs name in
  py_getitem v field.

(** A conforming result: exactly the three labels, in prompt order. *)
Definition labelled (p h c : list SearchHit) : CategorizedResult :=
  [("productivity", p); ("health", h); ("creativity", c)].

(** All hits of a mapping: buckets in key order, each in its own order. *)
Definition flatten (c : CategorizedResult) : list SearchHit :=
  List.concat (map snd c).

(** The bucket a label names in a mapping (empty when the label is absent). *)
Fixpoint bucket_of (label : string) (c : CategorizedResult) : list SearchHit :=
  match c with
  | [] => []
  | (k, hs) :: c' => if String.eqb label k then hs else bucket_of label c'
  end.

(** The flattening as the specification words it: buckets taken in the
    fixed label order [productivity, health, creativity]. *)
Definition flatten_by_labels (c : CategorizedResult) : list SearchHit :=
  List.concat (map (fun label => bucket_of label c) LABELS).



(** The session record of one bucket. *)
Definition session_record (kv : string * list SearchHit) : value :=
  VDict [(VStr "theme", VStr (fst kv));
         (VStr "materials", VList (map VStr (map snippet (firstn 2 (snd kv)))))].

(** The snippet sequence of a bucket, as a Python list of strings. *)
Definition snippets_value (hs : list SearchHit) : value :=
  VList (map VStr (map snippet hs)).

(** The knowledge base before personalization, on a typed mapping. *)
Definition store_bucket (acc : dict) (kv : string * list SearchHit) : dict :=
  dict_store (HStr (fst kv)) (VStr (fst kv)) (snippets_value (snd kv)) acc.

Definition typed_base (c : CategorizedResult) : dict :=
  fold_left store_bucket c [].

(** One turn of the profile loop on a typed profile. *)
Definition assign (kb : dict) (p : UserProfile) : dict :=
  match dict_find (HStr (interest p)) kb with
  | Some knowledge =>
      dict_store (HStr (profile_id p)) (VStr (profile_id p)) knowledge kb
  | None => kb
  end.

(** The key set the profile loop tests against: the keys it started from
    plus the id of every profile assigned so far. *)
Fixpoint known_keys (ks : list string) (ps : list UserProfile) : list string :=
  match ps with
  | [] => ks
  | p :: ps' =>
      if existsb (String.eqb (interest p)) ks
      then known_keys (profile_id p :: ks) ps'
      else known_keys ks ps'
  end.

(** A record of the search provider: a title, a link, and a body or a
    snippet field or neither. *)
Record RawRecord : Type := {
  raw_title : string;
  raw_href : string;
  raw_body : option string;
  raw_snippet : option string
}.

Definition optional_field (name : string) (o : option string) : dict :=
  match o with
  | Some s => [(VStr name, VStr s)]
  | None => []
  end.

Definition record_value (r : RawRecord) : value :=
  VDict ([(VStr "title", VStr (raw_title r)); (VStr "href", VStr (raw_href r))]
           ++ optional_field "body" (raw_body r)
           ++ optional_field "snippet" (raw_snippet r)).

(** Normalization as the specification words it. *)
Definition normalize (r : RawRecord) : SearchHit :=
  {| title := raw_title r;
     snippet := match raw_body r with
                | Some b => b
                | None => match raw_snippet r with
                          | Some s => s
                          | None => ""
                          end
                end |}.

Definition is_object (v : value) : bool :=
  match v with
  | VDict _ => true
  | _ => false
  end.

(** The string keys of a dict are exactly [ks]. *)
Definition key_set_is (v : value) (ks : list string) : Prop :=
  exists d, v = VDict d /\ forall k, In k (keys d) <-> exists s, k = VStr s /\ In s ks.

(** Profiles with fresh ids, one interested in a label and one not. *)
Definition fresh_profiles : list UserProfile :=
  [{| profile_id := "u1"; interest := "health" |};
   {| profile_id := "u3"; interest := "sleep" |}].

(** The bundle on typed inputs, view by view. *)
Definition typed_outputs (c : CategorizedResult) (raw : list SearchHit)
    (ps : list UserProfile) : value :=
  VDict
    [(VStr "newsletter",
      VDict [(VStr "content",
              VList (map VStr (map snippet (firstn 5 (flatten c)))))]);
     (VStr "tool_vault",
      VDict [(VStr "updates",
              VList (map hit_value
                       (filter (fun h => str_in "tool" (lower (snippet h)))
                          (flatten c))))]);
     (VStr "forum",
      VDict [(VStr "topics", VList (map VStr (map title (firstn 3 raw))))]);
     (VStr "coaching_bot",
      VDict [(VStr "knowledge_base",
              VDict (fold_left assign ps (typed_base c)))]);
     (VStr "workshops",
      VDict [(VStr "sessions", VList (map session_record c))])].

(** *** Concrete environments and inputs used in examples *)

Definition sample_hit : SearchHit :=
  {| title := "X"; snippet := "Great tool for focus" |}.


Definition hit_a : SearchHit := {| title := "A"; snippet := "walk daily" |}.
Definition hit_b : SearchHit := {| title := "B"; snippet := "batch email" |}.

(** The text [json.dumps] gives for the list of the one hit [sample_hit]. *)
Definition sample_json : string :=
  let q := String "034"%char EmptyString in
  ("[{" ++ q ++ "title" ++ q ++ ": " ++ q ++ "X" ++ q ++ ", "
   ++ q ++ "snippet" ++ q ++ ": " ++ q ++ "Great tool for focus" ++ q
   ++ "}]")%string.

(** An environment whose search provider finds the one record of
    [sample_hit], whose hits serialize to [sample_json], whose completion
    service answers every request with [reply] and whose webhook is
    configured and unreachable. *)
Definition env_replying (reply : completion) : env :=
  {| ZAPIER_WEBHOOK_URL := Some "https://hooks.example/relay";
     json_dumps := fun _ => Ok sample_json;
     ddgs_text := fun _ _ =>
       Ok [record_value {| raw_title := "X"; raw_href := "https://x.example";
                           raw_body := Some "Great tool for focus";
                           raw_snippet := None |}];
     chat_completions_create := fun _ => reply;
     requests_post := fun _ _ => Raise (External "ConnectionError");
     request_get_json := Ok (VDict []);
     jsonify := fun _ => Ok tt |}.

(** A reply that is a JSON object with one renamed key. *)
Definition renamed_reply : value := VDict [(VStr "tools", VList [hit_value sample_hit])].

(** A conforming mapping whose keys come in another order than the prompt's. *)
Definition reordered : CategorizedResult :=
  [("health", [hit_a]); ("productivity", [hit_b]); ("creativity", [])].

(** The second profile names the id of the first as its interest. *)
Definition chained_profiles : list UserProfile :=
  [{| profile_id := "u1"; interest := "health" |};
   {| profile_id := "u2"; interest := "u1" |}].

(** *** Events of interest *)

(** The calls to a collaborator, as opposed to log lines. *)
Definition is_call (ev : event) : bool :=
  match ev with
  | EvLog _ _ => false
  | _ => true
  end.

Definition is_chat (ev : event) : bool :=
  match ev with
  | EvChat _ => true
  | _ => false
  end.

Definition is_post (ev : event) : bool :=
  match ev with
  | EvPost _ _ => true
  | _ => false
  end.

(** The shape [web_search] gives every hit: a dict with the two keys
    [title] and [snippet], in this order. *)
Definition hit_shaped (h : value) : Prop :=
  exists t s, h = VDict [(VStr "title", t); (VStr "snippet", s)].

(** The knowledge-base entry of one bucket. *)
Definition base_entry (kv : string * list SearchHit) : value * value :=
  (VStr (fst kv), snippets_value (snd kv)).


(** The same bundle for an arbitrary knowledge base. *)
Definition outputs_with_knowledge (c : CategorizedResult) (topics : list value)
    (kb : dict) : value :=
  VDict
    [(VStr "newsletter",
      VDict [(VStr "content",
              VList (map VStr (map snippet (firstn 5 (flatten c)))))]);
     (VStr "tool_vault",
      VDict [(VStr "updates",
              VList (map hit_value
                       (filter (fun h => str_in "tool" (lower (snippet h)))
                          (flatten c))))]);
     (VStr "forum", VDict [(VStr "topics", VList topics)]);
     (VStr "coaching_bot", VDict [(VStr "knowledge_base", VDict kb)]);
     (VStr "workshops",
      VDict [(VStr "sessions", VList (map session_record c))])].

(** A profile that names an interest and has no id. *)
Definition profile_without_id (i : string) : value :=
  VDict [(VStr "interest", VStr i)].

(** An environment in which the search provider is down. *)
Definition env_search_down : env :=
  {| ZAPIER_WEBHOOK_URL := Some "https://hooks.example/relay";
     json_dumps := fun _ => Ok "[]";
     ddgs_text := fun _ _ => Raise (External "Timeout");
     chat_completions_create := fun _ => CompletionJSON (VList []);
     requests_post := fun _ _ => Ok tt;
     request_get_json := Ok (VDict []);
     jsonify := fun _ => Ok tt |}.

(** An environment whose request body is not a JSON object. *)
Definition env_bad_request : env :=
  {| ZAPIER_WEBHOOK_URL := Some "https://hooks.example/relay";
     json_dumps := fun _ => Ok "[]";
     ddgs_text := fun _ _ => Ok [];
     chat_completions_create := fun _ => CompletionNotJSON;
     requests_post := fun _ _ => Ok tt;
     request_get_json := Ok (VList []);
     jsonify := fun _ => Ok tt |}.

(** * Properties *)

(** ** Results and events of composed computations *)

Lemma fst_bind {A B : Type} (m : M A) (k : A -> M B) :
  fst (bind m k) =
  match fst m with
  | Ok a => fst (k a)
  | Raise e => Raise e
  end.
Proof.
  destruct m as [[a | e] t]; simpl; [destruct (k a) | ]; reflexivity.
Qed.

Lemma fst_try_except {A : Type} (body : M A) (handler : exn -> M A) :
  fst (try_except body handler) =
  match fst body with
  | Ok a => Ok a
  | Raise e => fst (handler e)
  end.
Proof.
  destruct body as [[a | e] t]; simpl; [ | destruct (handler e)]; reflexivity.
Qed.

Lemma fst_lift {A : Type} (r : result A) : fst (lift r) = r.
Proof. reflexivity. Qed.

Lemma send_to_zapier_returns (E : env) (outputs : value) :
  fst (send_to_zapier E outputs) = Ok tt.
Proof.
  unfold send_to_zapier.
  destruct (ZAPIER_WEBHOOK_URL E) as [url | ]; [ | reflexivity].
  destruct (truthy (VStr url)); [ | reflexivity].
  rewrite fst_try_except, !fst_bind, fst_lift. simpl.
  destruct (requests_post E url outputs) as [[] | e]; reflexivity.
Qed.

Lemma generate_outputs_result (E : env) (categorized : value)
    (raw_data : list value) (user_profiles : value) :
  fst (generate_outputs E categorized raw_data user_profiles) =
  build_outputs categorized raw_data user_profiles.
Proof.
  unfold generate_outputs.
  rewrite fst_bind, fst_lift.
  destruct (build_outputs categorized raw_data user_profiles) as [outputs | e];
    [ | reflexivity].
  rewrite fst_bind, send_to_zapier_returns. reflexivity.
Qed.

Lemma grok_process_raw_data_result (E : env) (raw_data : list value) :
  fst (grok_process_raw_data E raw_data) =
  match raw_data with
  | [] => Ok fallback
  | _ :: _ =>
      match json_dumps E raw_data with
      | Ok serialized =>
          match chat_completions_create E (user_prompt serialized) with
          | CompletionJSON v => Ok v
          | _ => Ok fallback
          end
      | Raise e => Raise e
      end
  end.
Proof.
  unfold grok_process_raw_data.
  destruct raw_data as [ | h raw]; [reflexivity | ].
  cbn [truthy negb].
  rewrite fst_bind, fst_lift.
  destruct (json_dumps E (h :: raw)) as [serialized | e]; [ | reflexivity].
  rewrite fst_try_except, !fst_bind, fst_lift. simpl.
  destruct (chat_completions_create E (user_prompt serialized)); reflexivity.
Qed.

Lemma build_outputs_non_object (v : value) (raw_data : list value)
    (user_profiles : value) :
  is_object v = false ->
  build_outputs v raw_data user_profiles = Raise AttributeError.
Proof.
  destruct v; simpl; intro H; try reflexivity; discriminate H.
Qed.

Lemma fallback_keys : key_set_is fallback LABELS.
Proof.
  eexists. split; [reflexivity | ].
  intro k. unfold keys, LABELS. simpl. split.
  - intros [H | [H | [H | []]]]; subst k; eexists; split; eauto; simpl; tauto.
  - intros [s [-> [H | [H | [H | []]]]]]; subst s; tauto.
Qed.

Lemma web_search_result (E : env) (query : string) (n : Z) :
  fst (web_search E query n) =
  match ddgs_text E query n with
  | Ok rs =>
      match mapM normalize_record rs with
      | Ok hits => Ok hits
      | Raise _ => Ok []
      end
  | Raise _ => Ok []
  end.
Proof.
  unfold web_search.
  rewrite fst_bind.
  change (fst (logging_info ("Executing web search for query: " ++ query)%string))
    with (Ok tt).
  rewrite fst_try_except, !fst_bind, fst_lift.
  change (fst (emit (EvSearch query n))) with (Ok tt).
  destruct (ddgs_text E query n) as [rs | e]; [ | reflexivity].
  rewrite fst_lift.
  destruct (mapM normalize_record rs); reflexivity.
Qed.

Lemma mapM_map_ok {A B C : Type} (f : B -> result C) (g : A -> B) (h : A -> C)
    (l : list A) :
  (forall x, f (g x) = Ok (h x)) ->
  mapM f (map g l) = Ok (map h l).
Proof.
  intro H. induction l as [ | x l IH]; simpl; [reflexivity | ].
  rewrite H. simpl. rewrite IH. reflexivity.
Qed.

Lemma mapM_raises {A B : Type} (f : A -> result B) (l : list A) :
  Exists (fun x => exists e, f x = Raise e) l ->
  exists e, mapM f l = Raise e.
Proof.
  induction 1 as [x l [e H] | x l _ [e IH]]; simpl.
  - rewrite H. exists e. reflexivity.
  - destruct (f x) as [y | e']; simpl; [ | eauto].
    rewrite IH. exists e. reflexivity.
Qed.

Lemma normalize_record_typed (r : RawRecord) :
  normalize_record (record_value r) = Ok (hit_value (normalize r)).
Proof.
  destruct r as [t h [b | ] [s | ]]; reflexivity.
Qed.

(** ** The categorizer *)

(** C5: on the empty hit sequence [grok_process_raw_data] returns the
    mapping [{productivity: [], health: [], creativity: []}] and causes no
    event at all, so the classification service is not called and the
    result does not depend on the environment. *)
Theorem empty_hits_short_circuit (E : env) :
  grok_process_raw_data E [] =
  (Ok (VDict [(VStr "productivity", VList []);
              (VStr "health", VList []);
              (VStr "creativity", VList [])]),
   []).
Proof. reflexivity. Qed.

(** C1, as the code has it: [grok_process_raw_data] raises only when
    [json.dumps] raises on the hits while the prompt is built, and then the
    service has not been called.  On the empty hit sequence, and whenever
    the service call raises or its text is not JSON, it returns the
    fallback, whose key set is exactly the three labels.  When the text
    decodes, the decoded value is returned as it is, whatever its keys. *)
Theorem categorize_fallback_or_reply (E : env) (raw_data : list value) :
  (raw_data = [] -> fst (grok_process_raw_data E raw_data) = Ok fallback) /\
  (raw_data <> [] ->
   forall e, json_dumps E raw_data = Raise e ->
             grok_process_raw_data E raw_data = (Raise e, [])) /\
  (raw_data <> [] ->
   forall serialized,
     json_dumps E raw_data = Ok serialized ->
     ((forall u, chat_completions_create E (user_prompt serialized)
                 <> CompletionJSON u) ->
      fst (grok_process_raw_data E raw_data) = Ok fallback) /\
     (forall u, chat_completions_create E (user_prompt serialized)
                = CompletionJSON u ->
                fst (grok_process_raw_data E raw_data) = Ok u)) /\
  key_set_is fallback LABELS.
Proof.
  split; [intros ->; reflexivity | ].
  split.
  - intros Hne e He. unfold grok_process_raw_data.
    destruct raw_data as [ | h raw]; [congruence | ].
    cbn [truthy negb]. rewrite He. reflexivity.
  - split; [ | apply fallback_keys].
    intros Hne serialized Hs. rewrite grok_process_raw_data_result.
    destruct raw_data as [ | h raw]; [congruence | ].
    rewrite Hs. split.
    + intro Hno.
      destruct (chat_completions_create E (user_prompt serialized)) as [e | | u]
        eqn:Hreply; try reflexivity.
      destruct (Hno u). reflexivity.
    + intros u ->. reflexivity.
Qed.

Lemma categorize_fallback_or_reply_witness :
  fst (grok_process_raw_data (env_replying CompletionNotJSON)
         [hit_value sample_hit]) = Ok fallback.
Proof.
  destruct (categorize_fallback_or_reply (env_replying CompletionNotJSON)
              [hit_value sample_hit]) as [_ [_ [Hreply _]]].
  destruct (Hreply ltac:(discriminate) sample_json eq_refl) as [Hfail _].
  apply Hfail. intros u H. discriminate H.
Defined.

(** C1 fails as stated: a reply that is a JSON object with a renamed key is
    returned unchanged, and its key set is not the three labels. *)
Lemma categorize_renamed_key_counterexample :
  fst (grok_process_raw_data (env_replying (CompletionJSON renamed_reply))
         [hit_value sample_hit]) = Ok renamed_reply /\
  ~ key_set_is renamed_reply LABELS.
Proof.
  split; [reflexivity | ].
  intros [d [Hd Hkeys]].
  injection Hd as <-.
  destruct (Hkeys (VStr "productivity")) as [_ Hin].
  destruct Hin as [H | []].
  - exists "productivity". split; [reflexivity | simpl; tauto].
  - discriminate H.
Qed.

(** C10: when the hits are not empty, the prompt is built and the
    service's text decodes to a JSON value that is not an object,
    [grok_process_raw_data] returns that value and not the fallback,
    [generate_outputs] raises on it whatever the other arguments are, and
    [run_automation_cycle] answers with the error response. *)
Theorem non_object_reply_fails_cycle (E : env) (raw_data : list value)
    (serialized : string) (v : value) :
  fst (web_search E QUERY 10) = Ok raw_data ->
  raw_data <> [] ->
  json_dumps E raw_data = Ok serialized ->
  chat_completions_create E (user_prompt serialized) = CompletionJSON v ->
  is_object v = false ->
  fst (grok_process_raw_data E raw_data) = Ok v /\
  v <> fallback /\
  (forall E' raw profiles,
      fst (generate_outputs E' v raw profiles) = Raise AttributeError) /\
  exists e, fst (run_automation_cycle E) = Ok (Failure e).
Proof.
  intros Hsearch Hne Hdumps Hreply Hobj.
  assert (Hgrok : fst (grok_process_raw_data E raw_data) = Ok v).
  { rewrite grok_process_raw_data_result.
    destruct raw_data; [congruence | ]. rewrite Hdumps, Hreply. reflexivity. }
  assert (Hgen : forall E' raw profiles,
             fst (generate_outputs E' v raw profiles) = Raise AttributeError).
  { intros. rewrite generate_outputs_result.
    apply build_outputs_non_object. exact Hobj. }
  split; [exact Hgrok | ].
  split; [intros ->; discriminate Hobj | ].
  split; [exact Hgen | ].
  unfold run_automation_cycle.
  rewrite fst_try_except, fst_bind, fst_lift.
  destruct (request_get_json E) as [data | e]; [ | exists e; reflexivity].
  rewrite fst_bind, fst_lift.
  destruct (py_get data "user_profiles" (VList [])) as [profiles | e];
    [ | exists e; reflexivity].
  rewrite fst_bind, Hsearch, fst_bind, Hgrok, fst_bind, Hgen.
  exists AttributeError. reflexivity.
Qed.

Lemma non_object_reply_fails_cycle_witness :
  fst (grok_process_raw_data (env_replying (CompletionJSON (VList [])))
         [hit_value sample_hit]) = Ok (VList []) /\
  exists e,
    fst (run_automation_cycle (env_replying (CompletionJSON (VList [])))) =
    Ok (Failure e).
Proof.
  destruct (non_object_reply_fails_cycle
              (env_replying (CompletionJSON (VList [])))
              [hit_value sample_hit] sample_json (VList []))
    as [Hgrok [_ [_ Hcycle]]];
    [reflexivity | discriminate | reflexivity | reflexivity | reflexivity | ].
  split; [exact Hgrok | exact Hcycle].
Defined.

(** ** The fetcher *)

(** C8: [web_search] never raises; when the provider raises, or hands back a
    record that has no title, the result is the empty sequence; when every
    record is well formed, each is normalized with its title as it is and
    its snippet taken from the body field, else from the snippet field, else
    empty. *)
Theorem web_search_degrades (E : env) (query : string) (n : Z) :
  exists hits,
    fst (web_search E query n) = Ok hits /\
    (forall e, ddgs_text E query n = Raise e -> hits = []) /\
    (forall rs,
        ddgs_text E query n = Ok rs ->
        Exists (fun r => exists e, py_getitem r "title" = Raise e) rs ->
        hits = []) /\
    (forall records,
        ddgs_text E query n = Ok (map record_value records) ->
        hits = map hit_value (map normalize records)).
Proof.
  rewrite web_search_result.
  destruct (ddgs_text E query n) as [rs | e] eqn:Hprovider.
  - destruct (mapM normalize_record rs) as [hits | e] eqn:Hnorm.
    + exists hits. repeat split; try congruence.
      * intros rs' Hrs' Hbad. injection Hrs' as <-.
        destruct (mapM_raises normalize_record rs) as [e He]; [ | congruence].
        eapply Exists_impl; [ | exact Hbad].
        intros r [e He]. exists e. unfold normalize_record. rewrite He. reflexivity.
      * intros records Hrs. injection Hrs as ->.
        rewrite map_map in *.
        rewrite (mapM_map_ok _ _ (fun r => hit_value (normalize r))) in Hnorm
          by apply normalize_record_typed.
        congruence.
    + exists []. repeat split; try congruence.
      intros records Hrs. injection Hrs as ->.
      rewrite (mapM_map_ok _ _ (fun r => hit_value (normalize r))) in Hnorm
        by apply normalize_record_typed.
      discriminate Hnorm.
  - exists []. repeat split; congruence.
Qed.

Lemma web_search_degrades_witness :
  fst (web_search (env_replying CompletionNotJSON) "life hacks" 10) =
  Ok [hit_value sample_hit].
Proof.
  destruct (web_search_degrades (env_replying CompletionNotJSON) "life hacks" 10)
    as [hits [Hhits [_ [_ Hok]]]].
  rewrite Hhits. f_equal.
  apply (Hok [{| raw_title := "X"; raw_href := "https://x.example";
                 raw_body := Some "Great tool for focus";
                 raw_snippet := None |}]).
  reflexivity.
Defined.

(** ** The relay *)

(** C7: what [generate_outputs] returns is [build_outputs] of its three
    arguments.  It does not depend on whether a relay target is configured
    nor on what the POST does: two environments give the same bundle, or
    the same exception of the projection itself. *)
Theorem relay_does_not_affect_outputs (E E' : env) (categorized : value)
    (raw_data : list value) (user_profiles : value) :
  fst (generate_outputs E categorized raw_data user_profiles) =
  build_outputs categorized raw_data user_profiles /\
  fst (generate_outputs E categorized raw_data user_profiles) =
  fst (generate_outputs E' categorized raw_data user_profiles).
Proof.
  rewrite !generate_outputs_result. split; reflexivity.
Qed.

(** ** Dictionaries with string keys *)

Lemma hkey_eqb_refl (h : hkey) : hkey_eqb h h = true.
Proof. unfold hkey_eqb. destruct (hkey_eq_dec h h); congruence. Qed.

Lemma hkey_eqb_eq (a b : hkey) : hkey_eqb a b = true <-> a = b.
Proof. unfold hkey_eqb. destruct (hkey_eq_dec a b); split; congruence. Qed.

Lemma key_matches_hash (h : hkey) (k : value) :
  key_matches h k = true <-> hash_key k = Some h.
Proof.
  unfold key_matches. destruct (hash_key k) as [h' | ].
  - rewrite hkey_eqb_eq. split; congruence.
  - split; discriminate.
Qed.

Lemma hash_key_str (k : value) (s : string) :
  hash_key k = Some (HStr s) <-> k = VStr s.
Proof.
  split; [ | intros ->; reflexivity].
  destruct k as [ | b | z | f | s' | l | d]; simpl; try discriminate.
  - unfold hkey_of_float. destruct f as [ | | | sg m e]; try discriminate.
    destruct (strip_twos m e) as [m' e']. destruct (0 <=? e'); discriminate.
  - congruence.
Qed.

Lemma dict_find_in (h : hkey) (d : dict) :
  dict_find h d <> None <-> exists k, In k (keys d) /\ hash_key k = Some h.
Proof.
  induction d as [ | [k v] d IH]; simpl.
  - split; [congruence | intros [k [[] _]]].
  - destruct (key_matches h k) eqn:Hk.
    + split; [ | discriminate].
      intros _. exists k. split; [tauto | apply key_matches_hash, Hk].
    + rewrite IH. split.
      * intros [k' [Hin Hh]]. exists k'. tauto.
      * intros [k' [[<- | Hin] Hh]]; [ | eauto].
        apply key_matches_hash in Hh. congruence.
Qed.

Lemma dict_find_str_in (s : string) (d : dict) :
  dict_find (HStr s) d <> None <-> In (VStr s) (keys d).
Proof.
  rewrite dict_find_in. split.
  - intros [k [Hin Hh]]. apply hash_key_str in Hh. congruence.
  - intro Hin. exists (VStr s). split; [exact Hin | reflexivity].
Qed.

Lemma dict_find_store_same (h : hkey) (k v : value) (d : dict) :
  hash_key k = Some h ->
  dict_find h (dict_store h k v d) = Some v.
Proof.
  intro Hk. induction d as [ | [k' v'] d IH]; simpl.
  - apply key_matches_hash in Hk. rewrite Hk. reflexivity.
  - destruct (key_matches h k') eqn:Hk'; simpl; rewrite Hk'; [reflexivity | exact IH].
Qed.

Lemma dict_find_store_other (h h' : hkey) (k v : value) (d : dict) :
  hash_key k = Some h ->
  h' <> h ->
  dict_find h' (dict_store h k v d) = dict_find h' d.
Proof.
  intros Hk Hne. induction d as [ | [k' v'] d IH]; simpl.
  - destruct (key_matches h' k) eqn:Hm; [ | reflexivity].
    apply key_matches_hash in Hm. congruence.
  - destruct (key_matches h k') eqn:Hk'; simpl.
    + destruct (key_matches h' k') eqn:Hm; [ | reflexivity].
      apply key_matches_hash in Hk', Hm. congruence.
    + rewrite IH. reflexivity.
Qed.

Lemma keys_store_present (h : hkey) (k v : value) (d : dict) :
  dict_find h d <> None ->
  keys (dict_store h k v d) = keys d.
Proof.
  induction d as [ | [k' v'] d IH]; simpl; [congruence | ].
  destruct (key_matches h k'); simpl; [reflexivity | ].
  intro H. rewrite IH by exact H. reflexivity.
Qed.

Lemma dict_store_absent (h : hkey) (k v : value) (d : dict) :
  dict_find h d = None ->
  dict_store h k v d = d ++ [(k, v)].
Proof.
  induction d as [ | [k' v'] d IH]; simpl; [reflexivity | ].
  destruct (key_matches h k'); [discriminate | ].
  intro H. rewrite IH by exact H. reflexivity.
Qed.

Lemma keys_store_in (h : hkey) (k v : value) (d : dict) (x : value) :
  hash_key k = Some h ->
  In x (keys (dict_store h k v d)) ->
  In x (keys d) \/ x = k.
Proof.
  intros Hk. destruct (dict_find h d) eqn:Hfind.
  - rewrite keys_store_present by congruence. tauto.
  - rewrite dict_store_absent by exact Hfind.
    unfold keys. rewrite map_app, in_app_iff. simpl. intuition.
Qed.

Lemma keys_store_keeps (h : hkey) (k v : value) (d : dict) (x : value) :
  In x (keys d) -> In x (keys (dict_store h k v d)).
Proof.
  induction d as [ | [k' v'] d IH]; simpl; [tauto | ].
  destruct (key_matches h k'); simpl; intuition.
Qed.

(** ** The views on typed inputs *)

Lemma filterM_map_ok {A B : Type} (p : B -> result bool) (g : A -> B)
    (q : A -> bool) (l : list A) :
  (forall x, p (g x) = Ok (q x)) ->
  filterM p (map g l) = Ok (map g (filter q l)).
Proof.
  intro H. induction l as [ | x l IH]; simpl; [reflexivity | ].
  rewrite H. simpl. rewrite IH. simpl. destruct (q x); reflexivity.
Qed.

Lemma foldM_map_ok {A B S : Type} (f : S -> B -> result S) (g : A -> B)
    (h : S -> A -> S) (l : list A) (s : S) :
  (forall s x, f s (g x) = Ok (h s x)) ->
  foldM f s (map g l) = Ok (fold_left h l s).
Proof.
  intro H. revert s. induction l as [ | x l IH]; intro s; simpl; [reflexivity | ].
  rewrite H. simpl. apply IH.
Qed.

Lemma snippet_of_hit (h : SearchHit) :
  snippet_of (hit_value h) = Ok (VStr (snippet h)).
Proof. reflexivity. Qed.

Lemma title_of_hit (h : SearchHit) :
  title_of (hit_value h) = Ok (VStr (title h)).
Proof. reflexivity. Qed.

Lemma mentions_tool_hit (h : SearchHit) :
  mentions_tool (hit_value h) = Ok (str_in "tool" (lower (snippet h))).
Proof. reflexivity. Qed.

Lemma snippets_of_hits (hs : list SearchHit) :
  mapM snippet_of (map hit_value hs) = Ok (map VStr (map snippet hs)).
Proof.
  rewrite map_map. apply mapM_map_ok. apply snippet_of_hit.
Qed.

Lemma all_hacks_typed (c : CategorizedResult) :
  all_hacks (categorized_value c) = Ok (map hit_value (flatten c)).
Proof.
  unfold all_hacks, categorized_value, flatten. simpl.
  rewrite !map_map. simpl.
  rewrite (mapM_map_ok _ _ (fun kv => map hit_value (snd kv)))
    by reflexivity.
  simpl. rewrite concat_map, map_map. reflexivity.
Qed.

Lemma filter_flatten (q : SearchHit -> bool) (c : CategorizedResult) :
  List.concat (map (fun kv => map hit_value (filter q (snd kv))) c) =
  map hit_value (filter q (flatten c)).
Proof.
  unfold flatten. induction c as [ | [k hs] c IH]; simpl; [reflexivity | ].
  rewrite filter_app, map_app, IH. reflexivity.
Qed.

Lemma tool_mentions_typed (c : CategorizedResult) :
  tool_mentions (categorized_value c) =
  Ok (map hit_value
        (filter (fun h => str_in "tool" (lower (snippet h))) (flatten c))).
Proof.
  unfold tool_mentions, categorized_value. simpl.
  rewrite !map_map. simpl.
  rewrite (mapM_map_ok _ _
             (fun kv => map hit_value
                          (filter (fun h => str_in "tool" (lower (snippet h)))
                             (snd kv)))).
  - simpl. rewrite filter_flatten. reflexivity.
  - intros [k hs]. simpl. apply filterM_map_ok. apply mentions_tool_hit.
Qed.

Lemma base_knowledge_typed (c : CategorizedResult) :
  base_knowledge (categorized_value c) = Ok (typed_base c).
Proof.
  unfold base_knowledge, categorized_value, typed_base. simpl.
  apply foldM_map_ok.
  intros acc [k hs]. simpl. rewrite snippets_of_hits. reflexivity.
Qed.

Lemma personalize_step_typed (kb : dict) (p : UserProfile) :
  personalize_step kb (profile_value p) = Ok (assign kb p).
Proof.
  unfold personalize_step, assign, profile_value.
  cbn [py_get rbind].
  change (dict_find (HStr "interest")
            [(VStr "id", VStr (profile_id p));
             (VStr "interest", VStr (interest p))])
    with (Some (VStr (interest p))).
  cbn [dict_contains hash_key rbind].
  destruct (dict_find (HStr (interest p)) kb) as [knowledge | ] eqn:Hfind;
    [ | reflexivity].
  cbn [rbind dict_getitem hash_key]. rewrite Hfind. reflexivity.
Qed.

Lemma personalize_typed (kb : dict) (ps : list UserProfile) :
  personalize kb (profiles_value ps) = Ok (fold_left assign ps kb).
Proof.
  unfold personalize, profiles_value.
  destruct ps as [ | p ps]; [reflexivity | ].
  cbn [truthy map py_iter rbind].
  change (profile_value p :: map profile_value ps)
    with (map profile_value (p :: ps)).
  apply foldM_map_ok. apply personalize_step_typed.
Qed.

Lemma session_typed (kv : string * list SearchHit) :
  session (VStr (fst kv), bucket_value (snd kv)) = Ok (session_record kv).
Proof.
  unfold session, bucket_value, session_record.
  cbn [snd fst py_slice_to rbind py_iter].
  rewrite firstn_map, snippets_of_hits. reflexivity.
Qed.

Lemma workshop_sessions_typed (c : CategorizedResult) :
  workshop_sessions (categorized_value c) = Ok (map session_record c).
Proof.
  unfold workshop_sessions, categorized_value. simpl.
  apply (mapM_map_ok session
           (fun kv => (VStr (fst kv), bucket_value (snd kv)))).
  apply session_typed.
Qed.

Lemma build_outputs_typed (c : CategorizedResult) (raw : list SearchHit)
    (ps : list UserProfile) :
  build_outputs (categorized_value c) (map hit_value raw) (profiles_value ps) =
  Ok (typed_outputs c raw ps).
Proof.
  unfold build_outputs.
  rewrite all_hacks_typed. cbn [rbind].
  rewrite firstn_map, snippets_of_hits. cbn [rbind].
  rewrite tool_mentions_typed. cbn [rbind].
  rewrite firstn_map.
  rewrite (mapM_map_ok _ _ (fun h => VStr (title h))) by apply title_of_hit.
  cbn [rbind].
  rewrite base_knowledge_typed. cbn [rbind].
  rewrite personalize_typed. cbn [rbind].
  rewrite workshop_sessions_typed. cbn [rbind].
  unfold typed_outputs. rewrite !map_map. reflexivity.
Qed.

Lemma generate_outputs_typed (E : env) (c : CategorizedResult)
    (raw : list SearchHit) (ps : list UserProfile) :
  fst (generate_outputs E (categorized_value c) (map hit_value raw)
         (profiles_value ps)) = Ok (typed_outputs c raw ps).
Proof.
  rewrite generate_outputs_result. apply build_outputs_typed.
Qed.

(** ** Substrings up to case *)






(** ** The projector *)

Lemma flatten_labelled (c : CategorizedResult) :
  map fst c = LABELS -> flatten_by_labels c = flatten c.
Proof.
  destruct c as [ | [k1 b1] [ | [k2 b2] [ | [k3 b3] [ | ? ?]]]]; try discriminate.
  simpl. intro H. injection H as -> -> ->. reflexivity.
Qed.

(** C4, as the code has it: the newsletter holds the snippets of the first
    five hits of the flattening that takes the buckets in the key order of
    the mapping itself, each bucket in its own order; it has at most five
    entries and at most as many as there are hits.  When the keys of the
    mapping are the three labels in prompt order, that flattening is the
    one in label order. *)
Theorem newsletter_first_five (E : env) (c : CategorizedResult)
    (raw : list SearchHit) (ps : list UserProfile) :
  exists outputs content,
    fst (generate_outputs E (categorized_value c) (map hit_value raw)
           (profiles_value ps)) = Ok outputs /\
    view outputs "newsletter" "content" = Ok (VList (map VStr content)) /\
    content = map snippet (firstn 5 (flatten c)) /\
    (List.length content <= 5)%nat /\
    (List.length content <= List.length (flatten c))%nat /\
    (map fst c = LABELS -> flatten c = flatten_by_labels c).
Proof.
  exists (typed_outputs c raw ps), (map snippet (firstn 5 (flatten c))).
  split; [apply generate_outputs_typed | ].
  split; [reflexivity | ].
  split; [reflexivity | ].
  rewrite length_map.
  split; [apply firstn_le_length | ].
  split; [rewrite length_firstn; apply Nat.le_min_r | ].
  intro H. symmetry. apply flatten_labelled, H.
Qed.

Lemma newsletter_first_five_witness :
  exists outputs,
    fst (generate_outputs (env_replying CompletionNotJSON)
           (categorized_value (labelled [sample_hit] [] []))
           (map hit_value [sample_hit]) (profiles_value [])) = Ok outputs /\
    view outputs "newsletter" "content" = Ok (VList [VStr "Great tool for focus"]) /\
    flatten (labelled [sample_hit] [] []) =
    flatten_by_labels (labelled [sample_hit] [] []).
Proof.
  destruct (newsletter_first_five (env_replying CompletionNotJSON)
              (labelled [sample_hit] [] []) [sample_hit] [])
    as [outputs [content [Hout [Hview [Hcontent [_ [_ Hlabels]]]]]]].
  exists outputs. split; [exact Hout | ].
  split; [rewrite Hview, Hcontent; reflexivity | ].
  apply Hlabels. reflexivity.
Defined.

(** C4 fails as stated: on a mapping that has the three labels as keys in
    another order, the newsletter follows the key order of the mapping and
    not the label order. *)
Lemma newsletter_label_order_counterexample :
  exists outputs,
    fst (generate_outputs (env_replying CompletionNotJSON)
           (categorized_value reordered) [] (profiles_value [])) = Ok outputs /\
    view outputs "newsletter" "content" =
    Ok (VList [VStr "walk daily"; VStr "batch email"]) /\
    map snippet (firstn 5 (flatten_by_labels reordered)) =
    ["batch email"; "walk daily"] /\
    view outputs "newsletter" "content" <>
    Ok (VList (map VStr (map snippet (firstn 5 (flatten_by_labels reordered))))).
Proof.
  eexists. split; [reflexivity | ].
  split; [reflexivity | ].
  split; [reflexivity | ].
  discriminate.
Qed.








Lemma session_record_fields (kv : string * list SearchHit) :
  py_getitem (session_record kv) "theme" = Ok (VStr (fst kv)) /\
  py_getitem (session_record kv) "materials" =
  Ok (VList (map VStr (map snippet (firstn 2 (snd kv))))).
Proof. split; reflexivity. Qed.

(** C3, as the code has it: the workshops view has one session per key of
    the mapping it is given, in the key order of that mapping; each session
    has the key as its theme and the snippets of the first two hits of the
    bucket as its materials, so at most two, and none for an empty bucket.
    When the keys of the mapping are the three labels in prompt order there
    are exactly three sessions, themed by the labels in that order. *)
Theorem workshops_one_session_per_key (E : env) (c : CategorizedResult)
    (raw : list SearchHit) (ps : list UserProfile) :
  exists outputs sessions,
    fst (generate_outputs E (categorized_value c) (map hit_value raw)
           (profiles_value ps)) = Ok outputs /\
    view outputs "workshops" "sessions" = Ok (VList sessions) /\
    List.length sessions = List.length c /\
    Forall2 (fun kv s =>
               py_getitem s "theme" = Ok (VStr (fst kv)) /\
               exists materials,
                 py_getitem s "materials" = Ok (VList (map VStr materials)) /\
                 materials = map snippet (firstn 2 (snd kv)) /\
                 (List.length materials <= 2)%nat /\
                 (snd kv = [] -> materials = []))
            c sessions /\
    (map fst c = LABELS ->
     List.length sessions = 3%nat /\
     mapM (fun s => py_getitem s "theme") sessions = Ok (map VStr LABELS)).
Proof.
  exists (typed_outputs c raw ps), (map session_record c).
  split; [apply generate_outputs_typed | ].
  split; [reflexivity | ].
  split; [apply length_map | ].
  split.
  - induction c as [ | kv c IH]; simpl; constructor; [ | exact IH].
    destruct (session_record_fields kv) as [Htheme Hmat].
    split; [exact Htheme | ].
    exists (map snippet (firstn 2 (snd kv))).
    split; [exact Hmat | ]. split; [reflexivity | ].
    rewrite length_map.
    split; [apply firstn_le_length | ].
    intros ->. reflexivity.
  - intro H. rewrite length_map, <- (length_map fst), H.
    split; [reflexivity | ].
    rewrite <- H, !map_map.
    apply mapM_map_ok. intro kv. apply session_record_fields.
Qed.

Lemma workshops_one_session_per_key_witness :
  exists outputs sessions,
    fst (generate_outputs (env_replying CompletionNotJSON)
           (categorized_value (labelled [sample_hit] [] []))
           (map hit_value [sample_hit]) (profiles_value [])) = Ok outputs /\
    view outputs "workshops" "sessions" = Ok (VList sessions) /\
    List.length sessions = 3%nat.
Proof.
  destruct (workshops_one_session_per_key (env_replying CompletionNotJSON)
              (labelled [sample_hit] [] []) [sample_hit] [])
    as [outputs [sessions [Hout [Hview [_ [_ Hlabels]]]]]].
  exists outputs, sessions.
  split; [exact Hout | ]. split; [exact Hview | ].
  apply Hlabels. reflexivity.
Defined.

(** C3 fails as stated: the categorizer hands over a reply with one renamed
    key as it is, and the workshops view then has one session, not three. *)
Lemma workshops_renamed_key_counterexample :
  fst (grok_process_raw_data (env_replying (CompletionJSON renamed_reply))
         [hit_value sample_hit]) = Ok renamed_reply /\
  exists outputs,
    fst (generate_outputs (env_replying (CompletionJSON renamed_reply))
           renamed_reply [hit_value sample_hit] VNone) = Ok outputs /\
    view outputs "workshops" "sessions" =
    Ok (VList [VDict [(VStr "theme", VStr "tools");
                      (VStr "materials", VList [VStr "Great tool for focus"])]]) /\
    forall sessions,
      view outputs "workshops" "sessions" = Ok (VList sessions) ->
      List.length sessions <> 3%nat.
Proof.
  split; [reflexivity | ].
  eexists. split; [reflexivity | ]. split; [reflexivity | ].
  intros sessions H. injection H as <-. discriminate.
Qed.

(** ** The coaching-bot knowledge base *)

Lemma keys_store_str (i : string) (v : value) (d : dict) (k : string) :
  In (VStr k) (keys (dict_store (HStr i) (VStr i) v d)) <->
  In (VStr k) (keys d) \/ k = i.
Proof.
  split.
  - intro H. apply keys_store_in in H; [ | reflexivity].
    destruct H as [H | H]; [tauto | right; congruence].
  - intros [H | ->]; [apply keys_store_keeps, H | ].
    destruct (dict_find (HStr i) d) eqn:Hfind.
    + apply keys_store_keeps, dict_find_str_in. congruence.
    + rewrite dict_store_absent by exact Hfind.
      unfold keys. rewrite map_app, in_app_iff. simpl. tauto.
Qed.

Lemma existsb_eqb_in (x : string) (ks : list string) :
  existsb (String.eqb x) ks = true <-> In x ks.
Proof.
  rewrite existsb_exists. split.
  - intros [y [Hin Heq]]. apply String.eqb_eq in Heq. congruence.
  - intro Hin. exists x. split; [exact Hin | apply String.eqb_refl].
Qed.

Lemma keys_typed_base_from (c : CategorizedResult) (acc : dict) (k : string) :
  In (VStr k) (keys (fold_left store_bucket c acc)) <->
  In (VStr k) (keys acc) \/ In k (map fst c).
Proof.
  revert acc. induction c as [ | kv c IH]; intro acc; simpl; [tauto | ].
  rewrite IH. unfold store_bucket at 1. rewrite keys_store_str.
  intuition congruence.
Qed.

Lemma keys_typed_base (c : CategorizedResult) (k : string) :
  In (VStr k) (keys (typed_base c)) <-> In k (map fst c).
Proof.
  unfold typed_base. rewrite keys_typed_base_from. simpl. tauto.
Qed.

(** The keys of the knowledge base after a run of the loop are the keys it
    started from and the ids of the profiles assigned on the way. *)
Lemma keys_after_profiles (ps : list UserProfile) (d : dict) (ks : list string) :
  (forall k, In (VStr k) (keys d) <-> In k ks) ->
  forall k, In (VStr k) (keys (fold_left assign ps d)) <-> In k (known_keys ks ps).
Proof.
  revert d ks. induction ps as [ | p ps IH]; intros d ks Hd; simpl; [exact Hd | ].
  unfold assign at 2.
  destruct (dict_find (HStr (interest p)) d) as [knowledge | ] eqn:Hfind.
  - assert (Hin : existsb (String.eqb (interest p)) ks = true).
    { apply existsb_eqb_in, Hd, dict_find_str_in. congruence. }
    rewrite Hin. apply IH.
    intro k. rewrite keys_store_str, Hd. simpl. intuition congruence.
  - assert (Hout : existsb (String.eqb (interest p)) ks = false).
    { destruct (existsb (String.eqb (interest p)) ks) eqn:Hex; [ | reflexivity].
      apply existsb_eqb_in, Hd, dict_find_str_in in Hex. congruence. }
    rewrite Hout. apply IH, Hd.
Qed.

Lemma view_knowledge_base (c : CategorizedResult) (raw : list SearchHit)
    (ps : list UserProfile) :
  view (typed_outputs c raw ps) "coaching_bot" "knowledge_base" =
  Ok (VDict (fold_left assign ps (typed_base c))).
Proof. reflexivity. Qed.

(** C9: the profiles are processed in input order against the mapping as it
    has grown so far.  Before a profile is processed the keys of the mapping
    are the category keys and the ids of the profiles assigned earlier
    ([known_keys]).  The profile is assigned an entry if and only if its
    interest is one of these keys; the entry takes the value found under the
    interest; every other key keeps its value; and when the id is already a
    key (a category key or an earlier id) that entry is overwritten in
    place, no key being added. *)
Theorem coaching_bot_accumulates (E : env) (c : CategorizedResult)
    (raw : list SearchHit) (ps : list UserProfile) (p : UserProfile) :
  exists outputs outputs' kb kb',
    fst (generate_outputs E (categorized_value c) (map hit_value raw)
           (profiles_value ps)) = Ok outputs /\
    fst (generate_outputs E (categorized_value c) (map hit_value raw)
           (profiles_value (ps ++ [p]))) = Ok outputs' /\
    view outputs "coaching_bot" "knowledge_base" = Ok (VDict kb) /\
    view outputs' "coaching_bot" "knowledge_base" = Ok (VDict kb') /\
    (forall k, In (VStr k) (keys kb) <-> In k (known_keys (map fst c) ps)) /\
    (~ In (interest p) (known_keys (map fst c) ps) -> kb' = kb) /\
    (In (interest p) (known_keys (map fst c) ps) ->
     exists knowledge,
       dict_find (HStr (interest p)) kb = Some knowledge /\
       dict_find (HStr (profile_id p)) kb' = Some knowledge /\
       (forall k, k <> profile_id p ->
                  dict_find (HStr k) kb' = dict_find (HStr k) kb) /\
       (In (profile_id p) (known_keys (map fst c) ps) -> keys kb' = keys kb) /\
       (~ In (profile_id p) (known_keys (map fst c) ps) ->
        keys kb' = keys kb ++ [VStr (profile_id p)])).
Proof.
  exists (typed_outputs c raw ps), (typed_outputs c raw (ps ++ [p])).
  exists (fold_left assign ps (typed_base c)).
  exists (fold_left assign (ps ++ [p]) (typed_base c)).
  split; [apply generate_outputs_typed | ].
  split; [apply generate_outputs_typed | ].
  split; [apply view_knowledge_base | ].
  split; [apply view_knowledge_base | ].
  assert (Hkeys : forall k,
             In (VStr k) (keys (fold_left assign ps (typed_base c))) <->
             In k (known_keys (map fst c) ps)).
  { apply keys_after_profiles. apply keys_typed_base. }
  split; [exact Hkeys | ].
  rewrite fold_left_app. simpl.
  set (kb := fold_left assign ps (typed_base c)) in *.
  unfold assign.
  destruct (dict_find (HStr (interest p)) kb) as [knowledge | ] eqn:Hfind.
  - split.
    + intro Hout. exfalso. apply Hout, Hkeys, dict_find_str_in. congruence.
    + intros _. exists knowledge.
      split; [reflexivity | ].
      split; [apply dict_find_store_same; reflexivity | ].
      split.
      * intros k Hk. apply dict_find_store_other; [reflexivity | congruence].
      * split.
        -- intro Hin. apply keys_store_present, dict_find_str_in, Hkeys, Hin.
        -- intro Hout. rewrite dict_store_absent.
           ++ unfold keys. rewrite map_app. reflexivity.
           ++ destruct (dict_find (HStr (profile_id p)) kb) eqn:Hid;
                [ | reflexivity].
              exfalso. apply Hout, Hkeys, dict_find_str_in. congruence.
  - split; [reflexivity | ].
    intro Hin. exfalso.
    apply Hkeys, dict_find_str_in in Hin. congruence.
Qed.

Lemma coaching_bot_accumulates_witness :
  exists outputs' kb',
    fst (generate_outputs (env_replying CompletionNotJSON)
           (categorized_value (labelled [] [hit_a] [])) (map hit_value [])
           (profiles_value chained_profiles)) = Ok outputs' /\
    view outputs' "coaching_bot" "knowledge_base" = Ok (VDict kb') /\
    dict_find (HStr "u2") kb' = Some (snippets_value [hit_a]).
Proof.
  destruct (coaching_bot_accumulates (env_replying CompletionNotJSON)
              (labelled [] [hit_a] []) []
              [{| profile_id := "u1"; interest := "health" |}]
              {| profile_id := "u2"; interest := "u1" |})
    as [outputs [outputs' [kb [kb' [Hout [Hout' [Hkb [Hkb' [_ [_ Hassign]]]]]]]]]].
  exists outputs', kb'.
  split; [exact Hout' | ]. split; [exact Hkb' | ].
  destruct Hassign as [knowledge [Hfind [Hid _]]]; [simpl; tauto | ].
  cbn [profile_id interest] in Hid, Hfind.
  rewrite Hid, <- Hfind.
  rewrite generate_outputs_typed in Hout. injection Hout as <-.
  rewrite view_knowledge_base in Hkb. injection Hkb as <-.
  reflexivity.
Defined.

Lemma find_typed_base_other (c : CategorizedResult) (acc : dict) (k : string) :
  ~ In k (map fst c) ->
  dict_find (HStr k) (fold_left store_bucket c acc) = dict_find (HStr k) acc.
Proof.
  revert acc. induction c as [ | kv c IH]; intros acc Hk; simpl; [reflexivity | ].
  simpl in Hk. rewrite IH by tauto.
  apply dict_find_store_other; [reflexivity | ].
  intro H. injection H as H. symmetry in H. tauto.
Qed.

Lemma find_typed_base_from (c : CategorizedResult) (acc : dict) (k : string)
    (hs : list SearchHit) :
  NoDup (map fst c) ->
  In (k, hs) c ->
  dict_find (HStr k) (fold_left store_bucket c acc) = Some (snippets_value hs).
Proof.
  revert acc. induction c as [ | kv c IH]; intros acc Hnd Hin; [destruct Hin | ].
  simpl in Hnd. apply NoDup_cons_iff in Hnd. destruct Hnd as [Hfresh Hnd].
  simpl. destruct Hin as [-> | Hin].
  - rewrite find_typed_base_other by exact Hfresh.
    apply dict_find_store_same. reflexivity.
  - apply IH; assumption.
Qed.

Lemma find_typed_base (c : CategorizedResult) (k : string) (hs : list SearchHit) :
  NoDup (map fst c) ->
  In (k, hs) c ->
  dict_find (HStr k) (typed_base c) = Some (snippets_value hs).
Proof. apply find_typed_base_from. Qed.

(** What holds of the knowledge base after a run of the loop over profiles
    whose ids are fresh: the category entries are untouched, every key is a
    category key or the id of a processed profile, and each processed
    profile has an entry exactly when its interest is a category key. *)
Lemma fresh_ids_invariant (c : CategorizedResult) (ps : list UserProfile) :
  NoDup (map profile_id ps) ->
  (forall p, In p ps -> ~ In (profile_id p) (map fst c)) ->
  (forall before q after p,
      ps = before ++ q :: after -> In p after -> interest p <> profile_id q) ->
  let kb := fold_left assign ps (typed_base c) in
  (forall k, In k (map fst c) ->
             dict_find (HStr k) kb = dict_find (HStr k) (typed_base c)) /\
  (forall k, dict_find (HStr k) kb <> None ->
             In k (map fst c) \/ In k (map profile_id ps)) /\
  (forall p, In p ps ->
             (dict_find (HStr (profile_id p)) kb <> None <->
              In (interest p) (map fst c)) /\
             (In (interest p) (map fst c) ->
              dict_find (HStr (profile_id p)) kb =
              dict_find (HStr (interest p)) (typed_base c))).
Proof.
  induction ps as [ | p ps IH] using rev_ind; intros Hnd Hfresh Hchain.
  - simpl. split; [reflexivity | ]. split.
    + intros k Hk. left. apply keys_typed_base, dict_find_str_in, Hk.
    + intros p [].
  - rewrite map_app in Hnd. simpl in Hnd.
    assert (Hp_new : ~ In (profile_id p) (map profile_id ps)).
    { apply NoDup_remove_2 in Hnd. rewrite app_nil_r in Hnd. exact Hnd. }
    apply NoDup_app_remove_r in Hnd.
    destruct IH as [Hbase [Hdom Hentries]]; trivial.
    { intros q Hq. apply Hfresh, in_or_app. tauto. }
    { intros before q after r Hsplit Hr.
      apply (Hchain before q (after ++ [p]) r).
      - rewrite Hsplit, <- app_assoc. reflexivity.
      - apply in_or_app. tauto. }
    assert (Hp_label : ~ In (profile_id p) (map fst c)).
    { apply Hfresh, in_or_app. simpl. tauto. }
    cbv zeta in *. rewrite fold_left_app. simpl.
    set (kb := fold_left assign ps (typed_base c)) in *.
    assert (Hp_absent : dict_find (HStr (profile_id p)) kb = None).
    { destruct (dict_find (HStr (profile_id p)) kb) eqn:Hf; [ | reflexivity].
      destruct (Hdom (profile_id p)); [congruence | tauto | tauto]. }
    assert (Hinterest : dict_find (HStr (interest p)) kb <> None <->
                        In (interest p) (map fst c)).
    { split.
      - intro Hf. destruct (Hdom _ Hf) as [H | H]; [exact H | ].
        apply in_map_iff in H. destruct H as [q [Hq Hin]].
        apply in_split in Hin. destruct Hin as [before [after Hsplit]].
        exfalso. apply (Hchain before q (after ++ [p]) p).
        + rewrite Hsplit, <- app_assoc. reflexivity.
        + apply in_or_app. simpl. tauto.
        + congruence.
      - intro Hin. rewrite Hbase by exact Hin.
        apply dict_find_str_in, keys_typed_base, Hin. }
    unfold assign.
    destruct (dict_find (HStr (interest p)) kb) as [knowledge | ] eqn:Hfind.
    + assert (Hlabel : In (interest p) (map fst c))
        by (apply Hinterest; congruence).
      split; [ | split].
      * intros k Hk. rewrite <- Hbase by exact Hk.
        apply dict_find_store_other; [reflexivity | congruence].
      * intros k Hk. rewrite map_app, in_app_iff. simpl.
        destruct (string_dec k (profile_id p)) as [-> | Hne]; [tauto | ].
        rewrite dict_find_store_other in Hk by (reflexivity || congruence).
        destruct (Hdom k Hk); tauto.
      * intros q Hq. apply in_app_or in Hq. destruct Hq as [Hq | [<- | []]].
        -- assert (Hne : profile_id q <> profile_id p).
           { intro Heq. apply Hp_new. rewrite <- Heq. apply in_map, Hq. }
           rewrite dict_find_store_other by (reflexivity || congruence).
           apply Hentries, Hq.
        -- rewrite dict_find_store_same by reflexivity.
           split; [split; [tauto | discriminate] | ].
           intros _. rewrite <- Hbase by exact Hlabel. congruence.
    + split; [exact Hbase | split].
      * intros k Hk. rewrite map_app, in_app_iff.
        destruct (Hdom k Hk); tauto.
      * intros q Hq. apply in_app_or in Hq. destruct Hq as [Hq | [<- | []]].
        -- apply Hentries, Hq.
        -- rewrite Hp_absent. split; [ | tauto].
           split; [congruence | ]. intro Hin. apply Hinterest in Hin. congruence.
Qed.

(** C2, as the code has it: when the keys of the mapping are distinct, the
    profile ids are distinct from each other and from the keys of the
    mapping, and no interest is the id of an earlier profile, the knowledge
    base has
    an entry keyed by a profile's id if and only if the profile's interest
    is a key of the mapping (one of the three labels, when those are its
    keys), and the value of that entry is the snippet sequence of the
    bucket the interest names. *)
Theorem coaching_bot_entry_iff_interest (E : env) (c : CategorizedResult)
    (raw : list SearchHit) (ps : list UserProfile) :
  NoDup (map fst c) ->
  NoDup (map profile_id ps) ->
  (forall p, In p ps -> ~ In (profile_id p) (map fst c)) ->
  (forall before q after p,
      ps = before ++ q :: after -> In p after -> interest p <> profile_id q) ->
  exists outputs kb,
    fst (generate_outputs E (categorized_value c) (map hit_value raw)
           (profiles_value ps)) = Ok outputs /\
    view outputs "coaching_bot" "knowledge_base" = Ok (VDict kb) /\
    forall p, In p ps ->
      (In (VStr (profile_id p)) (keys kb) <-> In (interest p) (map fst c)) /\
      (map fst c = LABELS ->
       (In (VStr (profile_id p)) (keys kb) <-> In (interest p) LABELS)) /\
      (forall hs, In (interest p, hs) c ->
                  dict_find (HStr (profile_id p)) kb = Some (snippets_value hs)).
Proof.
  intros Hmap Hids Hfresh Hchain.
  exists (typed_outputs c raw ps), (fold_left assign ps (typed_base c)).
  split; [apply generate_outputs_typed | ].
  split; [apply view_knowledge_base | ].
  destruct (fresh_ids_invariant c ps Hids Hfresh Hchain) as [_ [_ Hentries]].
  intros p Hp. destruct (Hentries p Hp) as [Hiff Hvalue].
  rewrite <- dict_find_str_in.
  split; [exact Hiff | ].
  split; [intros <-; exact Hiff | ].
  intros hs Hin. rewrite Hvalue.
  - apply find_typed_base; assumption.
  - apply in_map_iff. exists (interest p, hs). split; [reflexivity | exact Hin].
Qed.

Lemma coaching_bot_entry_iff_interest_witness :
  exists outputs kb,
    fst (generate_outputs (env_replying CompletionNotJSON)
           (categorized_value (labelled [] [hit_a] [])) (map hit_value [])
           (profiles_value fresh_profiles)) = Ok outputs /\
    view outputs "coaching_bot" "knowledge_base" = Ok (VDict kb) /\
    dict_find (HStr "u1") kb = Some (snippets_value [hit_a]) /\
    ~ In (VStr "u3") (keys kb).
Proof.
  destruct (coaching_bot_entry_iff_interest (env_replying CompletionNotJSON)
              (labelled [] [hit_a] []) [] fresh_profiles)
    as [outputs [kb [Hout [Hkb Hps]]]].
  - repeat constructor; simpl; intuition discriminate.
  - repeat constructor; simpl; intuition discriminate.
  - intros p [<- | [<- | []]]; simpl; intuition discriminate.
  - intros before q after p Hsplit Hp. unfold fresh_profiles in Hsplit.
    destruct before as [ | q1 before]; simpl in Hsplit.
    + injection Hsplit as <- <-. destruct Hp as [<- | []]. discriminate.
    + destruct before as [ | q2 before]; simpl in Hsplit.
      * injection Hsplit as _ <- <-. destruct Hp.
      * destruct before; discriminate Hsplit.
  - exists outputs, kb. split; [exact Hout | ]. split; [exact Hkb | ]. split.
    + apply (Hps {| profile_id := "u1"; interest := "health" |});
        simpl; tauto.
    + intro Hin.
      destruct (Hps {| profile_id := "u3"; interest := "sleep" |})
        as [Hiff _]; [simpl; tauto | ].
      apply Hiff in Hin. simpl in Hin. intuition discriminate.
Defined.

(** C2 fails as stated: the second profile names the id of the first as its
    interest, which is none of the three labels, and is given an entry. *)
Lemma coaching_bot_chained_interest_counterexample :
  exists outputs kb p,
    fst (generate_outputs (env_replying CompletionNotJSON)
           (categorized_value (labelled [] [hit_a] [])) (map hit_value [])
           (profiles_value chained_profiles)) = Ok outputs /\
    view outputs "coaching_bot" "knowledge_base" = Ok (VDict kb) /\
    In p chained_profiles /\
    In (VStr (profile_id p)) (keys kb) /\
    ~ In (interest p) LABELS.
Proof.
  eexists. eexists. exists {| profile_id := "u2"; interest := "u1" |}.
  split; [reflexivity | ]. split; [reflexivity | ].
  split; [simpl; tauto | ].
  split; [simpl; tauto | ].
  simpl. intuition discriminate.
Qed.

(** * Further properties of the pipeline *)

(** ** Events of composed computations *)

Lemma snd_bind {A B : Type} (m : M A) (k : A -> M B) :
  snd (bind m k) =
  snd m ++ match fst m with
           | Ok a => snd (k a)
           | Raise _ => []
           end.
Proof.
  destruct m as [[a | e] t]; simpl.
  - destruct (k a). reflexivity.
  - symmetry. apply app_nil_r.
Qed.

Lemma snd_try_except {A : Type} (body : M A) (handler : exn -> M A) :
  snd (try_except body handler) =
  snd body ++ match fst body with
              | Ok _ => []
              | Raise e => snd (handler e)
              end.
Proof.
  destruct body as [[a | e] t]; simpl.
  - symmetry. apply app_nil_r.
  - destruct (handler e). reflexivity.
Qed.

Lemma web_search_events (E : env) (query : string) (n : Z) :
  snd (web_search E query n) =
  [EvLog INFO ("Executing web search for query: " ++ query)%string;
   EvSearch query n]
  ++ match ddgs_text E query n with
     | Ok rs =>
         match mapM normalize_record rs with
         | Ok _ => []
         | Raise _ => [EvLog ERROR "Web search failed"]
         end
     | Raise _ => [EvLog ERROR "Web search failed"]
     end.
Proof.
  unfold web_search.
  rewrite snd_bind.
  change (fst (logging_info ("Executing web search for query: " ++ query)%string))
    with (Ok tt).
  rewrite snd_try_except, fst_bind, snd_bind.
  change (fst (emit (EvSearch query n))) with (Ok tt).
  rewrite fst_bind, snd_bind, !fst_lift.
  destruct (ddgs_text E query n) as [rs | e]; [ | reflexivity].
  rewrite fst_lift.
  destruct (mapM normalize_record rs); reflexivity.
Qed.

Lemma grok_process_raw_data_events (E : env) (raw_data : list value) :
  snd (grok_process_raw_data E raw_data) =
  match raw_data with
  | [] => []
  | _ :: _ =>
      match json_dumps E raw_data with
      | Ok serialized =>
          EvChat (user_prompt serialized) ::
          match chat_completions_create E (user_prompt serialized) with
          | CompletionJSON _ => []
          | _ => [EvLog ERROR "Grok processing failed"]
          end
      | Raise _ => []
      end
  end.
Proof.
  unfold grok_process_raw_data.
  destruct raw_data as [ | h raw]; [reflexivity | ].
  cbn [truthy negb].
  rewrite snd_bind, fst_lift.
  destruct (json_dumps E (h :: raw)) as [serialized | e]; [ | reflexivity].
  cbn [lift snd app].
  rewrite snd_try_except, fst_bind, snd_bind.
  change (fst (emit (EvChat (user_prompt serialized)))) with (Ok tt).
  rewrite fst_bind, snd_bind, !fst_lift.
  destruct (chat_completions_create E (user_prompt serialized)); reflexivity.
Qed.

Lemma send_to_zapier_events (E : env) (outputs : value) :
  snd (send_to_zapier E outputs) =
  match ZAPIER_WEBHOOK_URL E with
  | Some url =>
      if truthy (VStr url) then
        [EvPost url outputs;
         match requests_post E url outputs with
         | Ok _ => EvLog INFO "Outputs sent to Zapier webhook successfully"
         | Raise _ => EvLog ERROR "Failed to send to Zapier"
         end]
      else []
  | None => []
  end.
Proof.
  unfold send_to_zapier.
  destruct (ZAPIER_WEBHOOK_URL E) as [url | ]; [ | reflexivity].
  destruct (truthy (VStr url)); [ | reflexivity].
  rewrite snd_try_except, fst_bind, snd_bind.
  change (fst (emit (EvPost url outputs))) with (Ok tt).
  rewrite fst_bind, snd_bind, !fst_lift.
  destruct (requests_post E url outputs) as [[] | e]; reflexivity.
Qed.

Lemma generate_outputs_events (E : env) (categorized : value)
    (raw_data : list value) (user_profiles : value) :
  snd (generate_outputs E categorized raw_data user_profiles) =
  match build_outputs categorized raw_data user_profiles with
  | Ok outputs => snd (send_to_zapier E outputs)
  | Raise _ => []
  end.
Proof.
  unfold generate_outputs.
  rewrite snd_bind, fst_lift.
  destruct (build_outputs categorized raw_data user_profiles) as [outputs | e];
    [ | reflexivity].
  rewrite snd_bind, send_to_zapier_returns.
  simpl. rewrite app_nil_r. reflexivity.
Qed.

Lemma web_search_returns (E : env) (query : string) (n : Z) :
  exists hits, fst (web_search E query n) = Ok hits.
Proof.
  rewrite web_search_result.
  destruct (ddgs_text E query n) as [rs | e]; [ | eauto].
  destruct (mapM normalize_record rs); eauto.
Qed.

(** The handler, once the request body has given the profiles. *)
Lemma run_automation_cycle_result (E : env) (data user_profiles : value)
    (raw_data : list value) (categorized : value) :
  request_get_json E = Ok data ->
  py_get data "user_profiles" (VList []) = Ok user_profiles ->
  fst (web_search E QUERY 10) = Ok raw_data ->
  fst (grok_process_raw_data E raw_data) = Ok categorized ->
  fst (run_automation_cycle E) =
  Ok match build_outputs categorized raw_data user_profiles with
     | Ok outputs =>
         match jsonify E outputs with
         | Ok _ => Success outputs
         | Raise e => Failure e
         end
     | Raise e => Failure e
     end.
Proof.
  intros Hdata Hprofiles Hsearch Hgrok.
  unfold run_automation_cycle.
  rewrite fst_try_except, fst_bind, fst_lift, Hdata.
  rewrite fst_bind, fst_lift, Hprofiles.
  rewrite fst_bind, Hsearch, fst_bind, Hgrok.
  rewrite fst_bind, generate_outputs_result.
  destruct (build_outputs categorized raw_data user_profiles) as [outputs | e];
    [ | reflexivity].
  rewrite fst_bind.
  change (fst (logging_info "Automation cycle completed successfully"))
    with (Ok tt).
  rewrite fst_bind, fst_lift.
  destruct (jsonify E outputs) as [[] | e]; reflexivity.
Qed.

Lemma run_automation_cycle_events (E : env) (data user_profiles : value)
    (raw_data : list value) (categorized : value) :
  request_get_json E = Ok data ->
  py_get data "user_profiles" (VList []) = Ok user_profiles ->
  fst (web_search E QUERY 10) = Ok raw_data ->
  fst (grok_process_raw_data E raw_data) = Ok categorized ->
  snd (run_automation_cycle E) =
  snd (web_search E QUERY 10)
  ++ snd (grok_process_raw_data E raw_data)
  ++ snd (generate_outputs E categorized raw_data user_profiles)
  ++ match build_outputs categorized raw_data user_profiles with
     | Ok outputs =>
         EvLog INFO "Automation cycle completed successfully" ::
         match jsonify E outputs with
         | Ok _ => []
         | Raise _ => [EvLog ERROR "Error in automation cycle"]
         end
     | Raise _ => [EvLog ERROR "Error in automation cycle"]
     end.
Proof.
  intros Hdata Hprofiles Hsearch Hgrok.
  unfold run_automation_cycle.
  rewrite snd_try_except.
  rewrite fst_bind, snd_bind, !fst_lift, Hdata.
  rewrite fst_bind, snd_bind, !fst_lift, Hprofiles.
  rewrite fst_bind, snd_bind, Hsearch.
  rewrite fst_bind, snd_bind, Hgrok.
  rewrite fst_bind, snd_bind, generate_outputs_result.
  cbn [lift snd app].
  rewrite <- !app_assoc. f_equal. f_equal. f_equal.
  destruct (build_outputs categorized raw_data user_profiles) as [outputs | e];
    [ | reflexivity].
  rewrite fst_bind, snd_bind.
  change (fst (logging_info "Automation cycle completed successfully"))
    with (Ok tt).
  rewrite fst_bind, snd_bind, !fst_lift.
  destruct (jsonify E outputs) as [[] | e]; reflexivity.
Qed.

Lemma run_automation_cycle_categorizer_raises (E : env)
    (data user_profiles : value) (raw_data : list value) (e : exn) :
  request_get_json E = Ok data ->
  py_get data "user_profiles" (VList []) = Ok user_profiles ->
  fst (web_search E QUERY 10) = Ok raw_data ->
  fst (grok_process_raw_data E raw_data) = Raise e ->
  fst (run_automation_cycle E) = Ok (Failure e) /\
  snd (run_automation_cycle E) =
  snd (web_search E QUERY 10)
  ++ snd (grok_process_raw_data E raw_data)
  ++ [EvLog ERROR "Error in automation cycle"].
Proof.
  intros Hdata Hprofiles Hsearch Hgrok.
  unfold run_automation_cycle. split.
  - rewrite fst_try_except, fst_bind, fst_lift, Hdata.
    rewrite fst_bind, fst_lift, Hprofiles.
    rewrite fst_bind, Hsearch, fst_bind, Hgrok. reflexivity.
  - rewrite snd_try_except.
    rewrite fst_bind, snd_bind, !fst_lift, Hdata.
    rewrite fst_bind, snd_bind, !fst_lift, Hprofiles.
    rewrite fst_bind, snd_bind, Hsearch.
    rewrite fst_bind, snd_bind, Hgrok.
    cbn [lift snd app]. rewrite app_nil_r, <- app_assoc. reflexivity.
Qed.

Lemma run_automation_cycle_bad_request (E : env) :
  (forall data user_profiles,
      request_get_json E = Ok data ->
      py_get data "user_profiles" (VList []) <> Ok user_profiles) ->
  run_automation_cycle E =
  (Ok (Failure match request_get_json E with
               | Ok _ => AttributeError
               | Raise e => e
               end),
   [EvLog ERROR "Error in automation cycle"]).
Proof.
  intro Hbad. unfold run_automation_cycle.
  destruct (request_get_json E) as [data | e] eqn:Hdata; [ | reflexivity].
  destruct data; try reflexivity.
  exfalso. eapply Hbad; reflexivity.
Qed.

(** ** Calls made to the collaborators *)

Lemma web_search_calls (E : env) (query : string) (n : Z) :
  filter is_call (snd (web_search E query n)) = [EvSearch query n].
Proof.
  rewrite web_search_events.
  destruct (ddgs_text E query n) as [rs | e]; [ | reflexivity].
  destruct (mapM normalize_record rs); reflexivity.
Qed.

Lemma grok_process_raw_data_calls (E : env) (raw_data : list value) :
  filter is_call (snd (grok_process_raw_data E raw_data)) =
  match raw_data with
  | [] => []
  | _ :: _ =>
      match json_dumps E raw_data with
      | Ok serialized => [EvChat (user_prompt serialized)]
      | Raise _ => []
      end
  end.
Proof.
  rewrite grok_process_raw_data_events.
  destruct raw_data as [ | h raw]; [reflexivity | ].
  destruct (json_dumps E (h :: raw)) as [serialized | e]; [ | reflexivity].
  destruct (chat_completions_create E (user_prompt serialized)); reflexivity.
Qed.

Lemma send_to_zapier_calls (E : env) (outputs : value) :
  filter is_call (snd (send_to_zapier E outputs)) =
  match ZAPIER_WEBHOOK_URL E with
  | Some url => if String.eqb url "" then [] else [EvPost url outputs]
  | None => []
  end.
Proof.
  rewrite send_to_zapier_events.
  destruct (ZAPIER_WEBHOOK_URL E) as [url | ]; [ | reflexivity].
  cbn [truthy]. destruct (String.eqb url ""); cbn [negb]; [reflexivity | ].
  destruct (requests_post E url outputs); reflexivity.
Qed.

Lemma generate_outputs_calls (E : env) (categorized : value)
    (raw_data : list value) (user_profiles : value) :
  filter is_call (snd (generate_outputs E categorized raw_data user_profiles)) =
  match build_outputs categorized raw_data user_profiles, ZAPIER_WEBHOOK_URL E with
  | Ok outputs, Some url => if String.eqb url "" then [] else [EvPost url outputs]
  | _, _ => []
  end.
Proof.
  rewrite generate_outputs_events.
  destruct (build_outputs categorized raw_data user_profiles) as [outputs | e];
    [ | reflexivity].
  apply send_to_zapier_calls.
Qed.

Lemma run_automation_cycle_calls (E : env) (data user_profiles : value)
    (raw_data : list value) (categorized : value) :
  request_get_json E = Ok data ->
  py_get data "user_profiles" (VList []) = Ok user_profiles ->
  fst (web_search E QUERY 10) = Ok raw_data ->
  fst (grok_process_raw_data E raw_data) = Ok categorized ->
  filter is_call (snd (run_automation_cycle E)) =
  EvSearch QUERY 10
  :: filter is_call (snd (grok_process_raw_data E raw_data))
  ++ filter is_call (snd (generate_outputs E categorized raw_data user_profiles)).
Proof.
  intros Hdata Hprofiles Hsearch Hgrok.
  rewrite (run_automation_cycle_events E data user_profiles raw_data categorized)
    by assumption.
  rewrite !filter_app, web_search_calls. cbn [app]. f_equal. f_equal.
  rewrite <- app_nil_r. f_equal.
  destruct (build_outputs categorized raw_data user_profiles) as [outputs | e];
    [ | reflexivity].
  destruct (jsonify E outputs); reflexivity.
Qed.

(** X3: [generate_outputs] posts to the webhook at most once.  It posts
    exactly when the projection succeeded and the configured address is a
    non-empty string, and the payload is the bundle it returns. *)
Theorem relay_posts_returned_bundle_once (E : env) (categorized : value)
    (raw_data : list value) (user_profiles : value) :
  filter is_post (snd (generate_outputs E categorized raw_data user_profiles)) =
  match fst (generate_outputs E categorized raw_data user_profiles),
        ZAPIER_WEBHOOK_URL E with
  | Ok outputs, Some url => if String.eqb url "" then [] else [EvPost url outputs]
  | _, _ => []
  end.
Proof.
  rewrite generate_outputs_result, generate_outputs_events.
  destruct (build_outputs categorized raw_data user_profiles) as [outputs | e];
    [ | reflexivity].
  rewrite send_to_zapier_events.
  destruct (ZAPIER_WEBHOOK_URL E) as [url | ]; [ | reflexivity].
  cbn [truthy]. destruct (String.eqb url ""); cbn [negb]; [reflexivity | ].
  destruct (requests_post E url outputs); reflexivity.
Qed.

(** ** The request handler *)

(** X4: [run_automation_cycle] never raises: whatever the request and the
    collaborators do, it returns a response. *)
Theorem run_automation_cycle_never_raises (E : env) :
  exists r, fst (run_automation_cycle E) = Ok r.
Proof.
  destruct (request_get_json E) as [data | e] eqn:Hdata.
  - destruct (py_get data "user_profiles" (VList [])) as [profiles | e]
      eqn:Hprofiles.
    + destruct (web_search_returns E QUERY 10) as [raw Hraw].
      destruct (fst (grok_process_raw_data E raw)) as [categorized | e]
        eqn:Hcat.
      * rewrite (run_automation_cycle_result E data profiles raw categorized)
          by assumption.
        eauto.
      * destruct (run_automation_cycle_categorizer_raises
                    E data profiles raw e) as [Hrun _]; try assumption.
        eauto.
    + rewrite run_automation_cycle_bad_request; [simpl; eauto | ].
      intros data' profiles' H. congruence.
  - rewrite run_automation_cycle_bad_request; [simpl; eauto | ].
    intros data' profiles' H. congruence.
Qed.

(** X5: a success response carries exactly the bundle that the projection
    builds from the profiles of the request, the hits of the search and the
    result of the categorizer, and the framework could serialize it. *)
Theorem cycle_success_is_projection (E : env) (outputs : value) :
  fst (run_automation_cycle E) = Ok (Success outputs) ->
  exists data user_profiles raw_data categorized,
    request_get_json E = Ok data /\
    py_get data "user_profiles" (VList []) = Ok user_profiles /\
    fst (web_search E QUERY 10) = Ok raw_data /\
    fst (grok_process_raw_data E raw_data) = Ok categorized /\
    build_outputs categorized raw_data user_profiles = Ok outputs /\
    jsonify E outputs = Ok tt.
Proof.
  intro Hrun.
  destruct (request_get_json E) as [data | e] eqn:Hdata.
  - destruct (py_get data "user_profiles" (VList [])) as [profiles | e]
      eqn:Hprofiles.
    + destruct (web_search_returns E QUERY 10) as [raw Hraw].
      destruct (fst (grok_process_raw_data E raw)) as [categorized | e]
        eqn:Hcat.
      2:{ destruct (run_automation_cycle_categorizer_raises
                      E data profiles raw e) as [Hfail _]; try assumption.
          congruence. }
      rewrite (run_automation_cycle_result E data profiles raw categorized)
        in Hrun by assumption.
      exists data, profiles, raw, categorized.
      destruct (build_outputs categorized raw profiles) as [o | e];
        [ | discriminate Hrun].
      destruct (jsonify E o) as [[] | e] eqn:Hjson; [ | discriminate Hrun].
      injection Hrun as <-. repeat split; reflexivity || assumption.
    + rewrite run_automation_cycle_bad_request in Hrun; [discriminate Hrun | ].
      intros data' profiles' H. congruence.
  - rewrite run_automation_cycle_bad_request in Hrun; [discriminate Hrun | ].
    intros data' profiles' H. congruence.
Qed.

Lemma cycle_success_is_projection_witness :
  exists raw_data,
    fst (web_search (env_replying CompletionNotJSON) QUERY 10) = Ok raw_data /\
    build_outputs fallback raw_data (VList []) =
    Ok (typed_outputs (labelled [] [] []) [sample_hit] []).
Proof.
  destruct (cycle_success_is_projection (env_replying CompletionNotJSON)
              (typed_outputs (labelled [] [] []) [sample_hit] []))
    as [data [profiles [raw [categorized [Hdata [Hprofiles [Hraw [Hcat [Hbuild _]]]]]]]]];
    [reflexivity | ].
  exists raw. split; [exact Hraw | ].
  injection Hdata as <-. injection Hprofiles as <-.
  assert (Hhits : raw = [hit_value sample_hit])
    by (cbv in Hraw; injection Hraw as <-; reflexivity).
  subst raw. injection Hcat as <-. exact Hbuild.
Defined.

Lemma grok_process_raw_data_raises (E : env) (raw_data : list value) (e : exn) :
  fst (grok_process_raw_data E raw_data) = Raise e ->
  raw_data <> [] /\ json_dumps E raw_data = Raise e.
Proof.
  rewrite grok_process_raw_data_result.
  destruct raw_data as [ | h raw]; [discriminate | ].
  destruct (json_dumps E (h :: raw)) as [serialized | e'].
  - destruct (chat_completions_create E (user_prompt serialized)); discriminate.
  - intro H. injection H as ->. split; [discriminate | reflexivity].
Qed.

(** X6: an error response comes from the request body, from [json.dumps]
    on the hits while the prompt is built, from the projection of what the
    stages delivered, or from the serializer, never from the search provider
    or the classification service: their failures are absorbed before the
    handler sees them. *)
Theorem cycle_failure_sources (E : env) (e : exn) :
  fst (run_automation_cycle E) = Ok (Failure e) ->
  request_get_json E = Raise e \/
  (exists data, request_get_json E = Ok data /\ is_object data = false) \/
  (exists data user_profiles raw_data,
      request_get_json E = Ok data /\
      py_get data "user_profiles" (VList []) = Ok user_profiles /\
      fst (web_search E QUERY 10) = Ok raw_data /\
      ((raw_data <> [] /\ json_dumps E raw_data = Raise e) \/
       exists categorized,
         fst (grok_process_raw_data E raw_data) = Ok categorized /\
         (build_outputs categorized raw_data user_profiles = Raise e \/
          exists outputs,
            build_outputs categorized raw_data user_profiles = Ok outputs /\
            jsonify E outputs = Raise e))).
Proof.
  intro Hrun.
  destruct (request_get_json E) as [data | e'] eqn:Hdata.
  - destruct (py_get data "user_profiles" (VList [])) as [profiles | e']
      eqn:Hprofiles.
    + destruct (web_search_returns E QUERY 10) as [raw Hraw].
      right. right. exists data, profiles, raw.
      split; [reflexivity | ]. split; [exact Hprofiles | ].
      split; [exact Hraw | ].
      destruct (fst (grok_process_raw_data E raw)) as [categorized | e']
        eqn:Hcat.
      * rewrite (run_automation_cycle_result E data profiles raw categorized)
          in Hrun by assumption.
        right. exists categorized. split; [reflexivity | ].
        destruct (build_outputs categorized raw profiles) as [o | e'']
          eqn:Hbuild.
        -- destruct (jsonify E o) as [[] | e''] eqn:Hjson; [discriminate Hrun | ].
           injection Hrun as <-. right. exists o. auto.
        -- injection Hrun as <-. left. reflexivity.
      * destruct (run_automation_cycle_categorizer_raises
                    E data profiles raw e') as [Hfail _]; try assumption.
        rewrite Hfail in Hrun. injection Hrun as <-.
        left. apply grok_process_raw_data_raises, Hcat.
    + right. left. exists data. split; [reflexivity | ].
      destruct data; try reflexivity. discriminate Hprofiles.
  - rewrite run_automation_cycle_bad_request in Hrun.
    + rewrite Hdata in Hrun. injection Hrun as <-. left. reflexivity.
    + intros data' profiles' H. congruence.
Qed.

Lemma cycle_failure_sources_witness :
  exists data,
    request_get_json env_bad_request = Ok data /\ is_object data = false.
Proof.
  destruct (cycle_failure_sources env_bad_request AttributeError)
    as [H | [H | H]]; [reflexivity | | | ].
  - discriminate H.
  - exact H.
  - destruct H as [data [profiles [raw [Hdata [Hprofiles _]]]]].
    injection Hdata as <-. discriminate Hprofiles.
Defined.

(** X7: when the request body cannot be read, or is not a JSON object, the
    handler answers with the error response without calling any
    collaborator: no search, no classification, no relay. *)
Theorem malformed_request_calls_nothing (E : env) :
  (forall data, request_get_json E = Ok data -> is_object data = false) ->
  (exists e, fst (run_automation_cycle E) = Ok (Failure e)) /\
  filter is_call (snd (run_automation_cycle E)) = [].
Proof.
  intro Hbad.
  rewrite run_automation_cycle_bad_request.
  - split; [eexists | ]; reflexivity.
  - intros data profiles Hdata Hprofiles.
    apply Hbad in Hdata. destruct data; discriminate.
Qed.

Lemma malformed_request_calls_nothing_witness :
  filter is_call (snd (run_automation_cycle env_bad_request)) = [].
Proof.
  apply (malformed_request_calls_nothing env_bad_request).
  intros data H. injection H as <-. reflexivity.
Defined.

(** X8: when the search yields nothing (the provider failed, a record was
    malformed, or there were no results) the handler never calls the
    classification service. *)
Theorem empty_search_skips_classification (E : env) :
  fst (web_search E QUERY 10) = Ok [] ->
  filter is_chat (snd (run_automation_cycle E)) = [].
Proof.
  intro Hsearch.
  destruct (request_get_json E) as [data | e] eqn:Hdata.
  - destruct (py_get data "user_profiles" (VList [])) as [profiles | e]
      eqn:Hprofiles.
    + rewrite (run_automation_cycle_events E data profiles [] fallback)
        by (assumption || reflexivity).
      rewrite !filter_app, web_search_events, generate_outputs_events.
      assert (Hsend : forall o, filter is_chat (snd (send_to_zapier E o)) = []).
      { intro o. rewrite send_to_zapier_events.
        destruct (ZAPIER_WEBHOOK_URL E) as [url | ]; [ | reflexivity].
        destruct (truthy (VStr url)); [ | reflexivity].
        destruct (requests_post E url o); reflexivity. }
      destruct (build_outputs fallback [] profiles) as [o | e1].
      * rewrite Hsend.
        destruct (ddgs_text E QUERY 10) as [rs | e2];
          [destruct (mapM normalize_record rs) | ];
          destruct (jsonify E o); reflexivity.
      * destruct (ddgs_text E QUERY 10) as [rs | e2];
          [destruct (mapM normalize_record rs) | ]; reflexivity.
    + rewrite run_automation_cycle_bad_request; [reflexivity | ].
      intros data' profiles' H. congruence.
  - rewrite run_automation_cycle_bad_request; [reflexivity | ].
    intros data' profiles' H. congruence.
Qed.

Lemma empty_search_skips_classification_witness :
  filter is_chat (snd (run_automation_cycle env_search_down)) = [].
Proof.
  apply (empty_search_skips_classification env_search_down). reflexivity.
Defined.

(** X9: once the request body has given the profiles, one invocation
    calls each collaborator at most once and in the order search,
    classification, relay.  The search is always the first call; the
    classification is called exactly when the search found hits and they
    could be serialized for the prompt; the relay is called exactly when
    the projection succeeded and the configured address is not empty, with
    the bundle as payload. *)
Theorem cycle_calls_in_order_at_most_once (E : env) (data user_profiles : value) :
  request_get_json E = Ok data ->
  py_get data "user_profiles" (VList []) = Ok user_profiles ->
  exists raw_data,
    fst (web_search E QUERY 10) = Ok raw_data /\
    filter is_call (snd (run_automation_cycle E)) =
    EvSearch QUERY 10
    :: match raw_data with
       | [] => []
       | _ :: _ =>
           match json_dumps E raw_data with
           | Ok serialized => [EvChat (user_prompt serialized)]
           | Raise _ => []
           end
       end
    ++ match fst (grok_process_raw_data E raw_data) with
       | Ok categorized =>
           match build_outputs categorized raw_data user_profiles,
                 ZAPIER_WEBHOOK_URL E with
           | Ok outputs, Some url =>
               if String.eqb url "" then [] else [EvPost url outputs]
           | _, _ => []
           end
       | Raise _ => []
       end.
Proof.
  intros Hdata Hprofiles.
  destruct (web_search_returns E QUERY 10) as [raw Hraw].
  exists raw. split; [exact Hraw | ].
  destruct (fst (grok_process_raw_data E raw)) as [categorized | e] eqn:Hcat.
  - rewrite (run_automation_cycle_calls E data user_profiles raw categorized)
      by assumption.
    rewrite grok_process_raw_data_calls, generate_outputs_calls. reflexivity.
  - destruct (run_automation_cycle_categorizer_raises
                E data user_profiles raw e) as [_ Hevents]; try assumption.
    rewrite Hevents, !filter_app, web_search_calls, grok_process_raw_data_calls.
    reflexivity.
Qed.

Lemma cycle_calls_in_order_at_most_once_witness :
  exists outputs,
    filter is_call (snd (run_automation_cycle (env_replying CompletionNotJSON))) =
    [EvSearch QUERY 10; EvChat (user_prompt sample_json);
     EvPost "https://hooks.example/relay" outputs].
Proof.
  destruct (cycle_calls_in_order_at_most_once (env_replying CompletionNotJSON)
              (VDict []) (VList [])) as [raw [Hraw Hcalls]];
    [reflexivity | reflexivity | ].
  eexists. rewrite Hcalls.
  assert (Hhits : raw = [hit_value sample_hit])
    by (cbv in Hraw; injection Hraw as <-; reflexivity).
  subst raw. reflexivity.
Defined.

(** ** The shape of the search results *)

Lemma mapM_Forall {A B : Type} (f : A -> result B) (P : B -> Prop)
    (l : list A) (ys : list B) :
  (forall x y, f x = Ok y -> P y) ->
  mapM f l = Ok ys ->
  Forall P ys.
Proof.
  intro H. revert ys. induction l as [ | x l IH]; simpl; intros ys Hys.
  - injection Hys as <-. constructor.
  - destruct (f x) as [y | e] eqn:Hx; [ | discriminate Hys]. simpl in Hys.
    destruct (mapM f l) as [ys' | e]; [ | discriminate Hys]. simpl in Hys.
    injection Hys as <-. constructor; [eapply H, Hx | apply IH; reflexivity].
Qed.

Lemma mapM_length {A B : Type} (f : A -> result B) (l : list A) (ys : list B) :
  mapM f l = Ok ys -> List.length ys = List.length l.
Proof.
  revert ys. induction l as [ | x l IH]; simpl; intros ys Hys.
  - injection Hys as <-. reflexivity.
  - destruct (f x) as [y | e]; [ | discriminate Hys]. simpl in Hys.
    destruct (mapM f l) as [ys' | e]; [ | discriminate Hys]. simpl in Hys.
    injection Hys as <-. simpl. f_equal. apply IH. reflexivity.
Qed.

Lemma normalize_record_shaped (r h : value) :
  normalize_record r = Ok h -> hit_shaped h.
Proof.
  unfold normalize_record. intro H.
  destruct (py_getitem r "title") as [t | e]; [ | discriminate H].
  cbn [rbind] in H.
  destruct (py_get r "snippet" (VStr "")) as [s0 | e]; [ | discriminate H].
  cbn [rbind] in H.
  destruct (py_get r "body" s0) as [s | e]; [ | discriminate H].
  cbn [rbind] in H. injection H as <-. exists t, s. reflexivity.
Qed.

Lemma hit_shaped_fields (h : value) :
  hit_shaped h ->
  exists t s, title_of h = Ok t /\ snippet_of h = Ok s.
Proof.
  intros [t [s ->]]. exists t, s. split; reflexivity.
Qed.

Lemma web_search_returns_shaped (E : env) (query : string) (n : Z) :
  exists hits,
    fst (web_search E query n) = Ok hits /\
    Forall hit_shaped hits /\
    (forall rs, ddgs_text E query n = Ok rs ->
                hits = [] \/ List.length hits = List.length rs).
Proof.
  rewrite web_search_result.
  destruct (ddgs_text E query n) as [rs | e].
  - destruct (mapM normalize_record rs) as [hits | e] eqn:Hnorm.
    + exists hits. split; [reflexivity | ].
      split; [eapply mapM_Forall; [ | exact Hnorm];
              apply normalize_record_shaped | ].
      intros rs' H. injection H as <-. right. eapply mapM_length, Hnorm.
    + exists []. repeat split; auto.
  - exists []. repeat split; auto.
Qed.

(** X2: whatever the provider hands back, every hit [web_search] returns is
    a dict with exactly the keys [title] and [snippet], so reading either
    field of a hit never raises; and the result is all or nothing: it has
    one hit per provider record, or none at all. *)
Theorem web_search_hits_shaped (E : env) (query : string) (n : Z) :
  exists hits,
    fst (web_search E query n) = Ok hits /\
    Forall hit_shaped hits /\
    Forall (fun h => exists t s, title_of h = Ok t /\ snippet_of h = Ok s) hits /\
    (forall rs, ddgs_text E query n = Ok rs ->
                hits = [] \/ List.length hits = List.length rs).
Proof.
  destruct (web_search_returns_shaped E query n) as [hits [Hhits [Hshape Hlen]]].
  exists hits. split; [exact Hhits | ]. split; [exact Hshape | ].
  split; [ | exact Hlen].
  eapply Forall_impl; [ | exact Hshape]. apply hit_shaped_fields.
Qed.

(** ** The forum view *)

(** X1: the forum topics are the titles of the first three raw hits, in
    their order; they do not depend on the categorization or the profiles. *)
Theorem forum_first_three_titles (E : env) (c : CategorizedResult)
    (raw : list SearchHit) (ps : list UserProfile) :
  exists outputs topics,
    fst (generate_outputs E (categorized_value c) (map hit_value raw)
           (profiles_value ps)) = Ok outputs /\
    view outputs "forum" "topics" = Ok (VList (map VStr topics)) /\
    topics = map title (firstn 3 raw) /\
    (List.length topics <= 3)%nat /\
    (List.length topics <= List.length raw)%nat.
Proof.
  exists (typed_outputs c raw ps), (map title (firstn 3 raw)).
  split; [apply generate_outputs_typed | ].
  split; [reflexivity | ]. split; [reflexivity | ].
  rewrite length_map.
  split; [apply firstn_le_length | ].
  rewrite length_firstn. apply Nat.le_min_r.
Qed.



(** ** Values stored in the knowledge base *)






(** ** Personalization on arbitrary profiles *)

Lemma keys_store_appends (h : hkey) (k v : value) (d : dict) :
  exists added,
    keys (dict_store h k v d) = keys d ++ added /\ (List.length added <= 1)%nat.
Proof.
  destruct (dict_find h d) eqn:Hfind.
  - exists []. rewrite keys_store_present by congruence.
    rewrite app_nil_r. split; [reflexivity | simpl; lia].
  - exists [k]. rewrite dict_store_absent by exact Hfind.
    unfold keys. rewrite map_app. split; [reflexivity | simpl; lia].
Qed.

Lemma personalize_step_appends (kb kb' : dict) (profile : value) :
  personalize_step kb profile = Ok kb' ->
  exists added,
    keys kb' = keys kb ++ added /\ (List.length added <= 1)%nat.
Proof.
  unfold personalize_step. intro H.
  destruct (py_get profile "interest" VNone) as [i | e]; [ | discriminate H].
  cbn [rbind] in H.
  destruct (dict_contains kb i) as [[ | ] | e]; cbn [rbind] in H;
    try discriminate H.
  - destruct (dict_getitem kb i) as [v | e]; [ | discriminate H].
    cbn [rbind] in H.
    destruct (py_getitem profile "id") as [id | e]; [ | discriminate H].
    cbn [rbind] in H. unfold dict_setitem in H.
    destruct (hash_key id) as [h | ]; [ | discriminate H].
    injection H as <-. apply keys_store_appends.
  - injection H as <-. exists []. rewrite app_nil_r.
    split; [reflexivity | simpl; lia].
Qed.

Lemma personalize_loop_appends (profiles : list value) (kb kb' : dict) :
  foldM personalize_step kb profiles = Ok kb' ->
  exists added,
    keys kb' = keys kb ++ added /\
    (List.length added <= List.length profiles)%nat.
Proof.
  revert kb. induction profiles as [ | p profiles IH]; simpl; intros kb H.
  - injection H as <-. exists []. rewrite app_nil_r.
    split; [reflexivity | simpl; lia].
  - destruct (personalize_step kb p) as [kb1 | e] eqn:Hstep; [ | discriminate H].
    cbn [rbind] in H.
    destruct (personalize_step_appends _ _ _ Hstep) as [a1 [Hk1 Hl1]].
    destruct (IH _ H) as [a2 [Hk2 Hl2]].
    exists (a1 ++ a2). rewrite Hk2, Hk1, <- app_assoc.
    split; [reflexivity | rewrite length_app; lia].
Qed.

(** X11: personalization only appends.  In the bundle, the keys of the
    knowledge base are the keys of the base mapping, in their order,
    followed by at most one new key per profile; no category key is removed
    or moved, and without profiles nothing is added. *)
Theorem personalization_appends_keys (E : env) (categorized : value)
    (raw_data : list value) (user_profiles outputs : value) :
  fst (generate_outputs E categorized raw_data user_profiles) = Ok outputs ->
  exists base kb added,
    base_knowledge categorized = Ok base /\
    view outputs "coaching_bot" "knowledge_base" = Ok (VDict kb) /\
    keys kb = keys base ++ added /\
    (truthy user_profiles = false -> added = []) /\
    (forall profiles,
        py_iter user_profiles = Ok profiles ->
        (List.length added <= List.length profiles)%nat).
Proof.
  rewrite generate_outputs_result. unfold build_outputs. intro H.
  destruct (all_hacks categorized) as [hacks | e]; [ | discriminate H].
  cbn [rbind] in H.
  destruct (mapM snippet_of (firstn 5 hacks)) as [content | e];
    [ | discriminate H].
  cbn [rbind] in H.
  destruct (tool_mentions categorized) as [tools | e]; [ | discriminate H].
  cbn [rbind] in H.
  destruct (mapM title_of (firstn 3 raw_data)) as [topics | e];
    [ | discriminate H].
  cbn [rbind] in H.
  destruct (base_knowledge categorized) as [base | e]; [ | discriminate H].
  cbn [rbind] in H.
  destruct (personalize base user_profiles) as [kb | e] eqn:Hkb;
    [ | discriminate H].
  cbn [rbind] in H.
  destruct (workshop_sessions categorized) as [sessions | e];
    [ | discriminate H].
  cbn [rbind] in H. injection H as <-.
  unfold personalize in Hkb.
  destruct (truthy user_profiles) eqn:Htruthy.
  - destruct (py_iter user_profiles) as [profiles | e] eqn:Hiter;
      [ | discriminate Hkb].
    cbn [rbind] in Hkb.
    destruct (personalize_loop_appends _ _ _ Hkb) as [added [Hkeys Hlen]].
    exists base, kb, added.
    split; [reflexivity | ]. split; [reflexivity | ]. split; [exact Hkeys | ].
    split; [discriminate | ].
    intros profiles' Hp. injection Hp as <-. exact Hlen.
  - injection Hkb as <-. exists base, base, [].
    split; [reflexivity | ]. split; [reflexivity | ].
    split; [symmetry; apply app_nil_r | ].
    split; [reflexivity | ]. intros. simpl. lia.
Qed.

Lemma personalization_appends_keys_witness :
  exists kb added,
    view (typed_outputs (labelled [] [hit_a] []) [] chained_profiles)
      "coaching_bot" "knowledge_base" = Ok (VDict kb) /\
    keys kb = keys (typed_base (labelled [] [hit_a] [])) ++ added /\
    (List.length added <= 2)%nat.
Proof.
  destruct (personalization_appends_keys (env_replying CompletionNotJSON)
              (categorized_value (labelled [] [hit_a] [])) (map hit_value [])
              (profiles_value chained_profiles)
              (typed_outputs (labelled [] [hit_a] []) [] chained_profiles))
    as [base [kb [added [Hbase [Hkb [Hkeys [_ Hlen]]]]]]]; [reflexivity | ].
  exists kb, added. split; [exact Hkb | ].
  rewrite base_knowledge_typed in Hbase. injection Hbase as <-.
  split; [exact Hkeys | ].
  apply (Hlen (map profile_value chained_profiles)). reflexivity.
Defined.

Lemma foldM_app {A S : Type} (f : S -> A -> result S) (s : S) (l1 l2 : list A) :
  foldM f s (l1 ++ l2) = (let? s' := foldM f s l1 in foldM f s' l2).
Proof.
  revert s. induction l1 as [ | x l1 IH]; intro s; simpl; [reflexivity | ].
  destruct (f s x) as [s' | e]; simpl; [apply IH | reflexivity].
Qed.

Lemma personalize_after_typed (kb : dict) (ps : list UserProfile)
    (p : value) (rest : list value) :
  personalize kb (VList (map profile_value ps ++ p :: rest)) =
  (let? kb' := personalize_step (fold_left assign ps kb) p in
   foldM personalize_step kb' rest).
Proof.
  unfold personalize.
  assert (Htruthy : truthy (VList (map profile_value ps ++ p :: rest)) = true)
    by (destruct ps; reflexivity).
  rewrite Htruthy. cbn [py_iter rbind].
  rewrite foldM_app.
  rewrite (foldM_map_ok _ _ assign) by apply personalize_step_typed.
  reflexivity.
Qed.

Lemma build_outputs_with_knowledge (c : CategorizedResult) (raw : list SearchHit)
    (user_profiles : value) :
  build_outputs (categorized_value c) (map hit_value raw) user_profiles =
  (let? kb := personalize (typed_base c) user_profiles in
   Ok (outputs_with_knowledge c (map VStr (map title (firstn 3 raw))) kb)).
Proof.
  unfold build_outputs.
  rewrite all_hacks_typed. cbn [rbind].
  rewrite firstn_map, snippets_of_hits. cbn [rbind].
  rewrite tool_mentions_typed. cbn [rbind].
  rewrite firstn_map.
  rewrite (mapM_map_ok _ _ (fun h => VStr (title h))) by apply title_of_hit.
  cbn [rbind].
  rewrite base_knowledge_typed. cbn [rbind].
  destruct (personalize (typed_base c) user_profiles) as [kb | e];
    [ | reflexivity].
  cbn [rbind].
  rewrite workshop_sessions_typed. cbn [rbind].
  unfold outputs_with_knowledge. rewrite !map_map. reflexivity.
Qed.

(** X12: a profile that names a known interest and has no [id] makes the
    whole projection raise [KeyError]: no bundle is returned, whatever the
    profiles after it are. *)
Theorem matching_profile_without_id_fails (E : env) (c : CategorizedResult)
    (raw : list SearchHit) (ps : list UserProfile) (d : dict) (i : string)
    (rest : list value) :
  dict_find (HStr "interest") d = Some (VStr i) ->
  dict_find (HStr "id") d = None ->
  In i (known_keys (map fst c) ps) ->
  fst (generate_outputs E (categorized_value c) (map hit_value raw)
         (VList (map profile_value ps ++ VDict d :: rest))) =
  Raise KeyError.
Proof.
  intros Hinterest Hid Hknown.
  rewrite generate_outputs_result, build_outputs_with_knowledge.
  rewrite personalize_after_typed.
  assert (Hfind : dict_find (HStr i) (fold_left assign ps (typed_base c)) <> None).
  { apply dict_find_str_in.
    apply (keys_after_profiles ps (typed_base c) (map fst c));
      [apply keys_typed_base | exact Hknown]. }
  unfold personalize_step.
  cbn [py_get rbind]. rewrite Hinterest.
  cbn [dict_contains dict_getitem py_getitem hash_key rbind].
  destruct (dict_find (HStr i) (fold_left assign ps (typed_base c)));
    [ | congruence].
  cbn [rbind]. rewrite Hid. reflexivity.
Qed.

Lemma matching_profile_without_id_fails_witness :
  fst (generate_outputs (env_replying CompletionNotJSON)
         (categorized_value (labelled [] [hit_a] [])) (map hit_value [])
         (VList [profile_without_id "health"])) = Raise KeyError.
Proof.
  apply (matching_profile_without_id_fails (env_replying CompletionNotJSON)
           (labelled [] [hit_a] []) [] [] [(VStr "interest", VStr "health")]
           "health" []).
  - reflexivity.
  - reflexivity.
  - simpl. tauto.
Defined.

Lemma typed_keys_are_strings (c : CategorizedResult) (ps : list UserProfile)
    (k : value) :
  In k (keys (fold_left assign ps (typed_base c))) -> exists s, k = VStr s.
Proof.
  assert (Hbase : forall acc,
             (forall x, In x (keys acc) -> exists s, x = VStr s) ->
             forall x, In x (keys (fold_left store_bucket c acc)) ->
                       exists s, x = VStr s).
  { induction c as [ | kv c IH]; intros acc Hacc x; simpl; [apply Hacc | ].
    apply IH. intros y Hy. unfold store_bucket in Hy.
    apply keys_store_in in Hy; [ | reflexivity].
    destruct Hy as [Hy | ->]; [apply Hacc, Hy | eauto]. }
  assert (Hloop : forall kb,
             (forall x, In x (keys kb) -> exists s, x = VStr s) ->
             forall x, In x (keys (fold_left assign ps kb)) ->
                       exists s, x = VStr s).
  { induction ps as [ | p ps IH]; intros kb Hkb x; simpl; [apply Hkb | ].
    apply IH. intros y Hy. unfold assign in Hy.
    destruct (dict_find (HStr (interest p)) kb); [ | apply Hkb, Hy].
    apply keys_store_in in Hy; [ | reflexivity].
    destruct Hy as [Hy | ->]; [apply Hkb, Hy | eauto]. }
  apply Hloop. apply Hbase. intros x [].
Qed.

(** X13: a profile without an [interest] (or with a null one) is passed
    over, even when it has no [id] either: the bundle is the one of the
    profiles around it. *)
Theorem profile_without_interest_is_skipped (E : env) (c : CategorizedResult)
    (raw : list SearchHit) (before after : list UserProfile) (d : dict) :
  py_get (VDict d) "interest" VNone = Ok VNone ->
  fst (generate_outputs E (categorized_value c) (map hit_value raw)
         (VList (map profile_value before ++
                 VDict d :: map profile_value after))) =
  fst (generate_outputs E (categorized_value c) (map hit_value raw)
         (profiles_value (before ++ after))).
Proof.
  intro Hinterest.
  rewrite !generate_outputs_result, !build_outputs_with_knowledge.
  rewrite personalize_after_typed, personalize_typed, fold_left_app.
  assert (Hnone : dict_find HNone (fold_left assign before (typed_base c)) = None).
  { destruct (dict_find HNone (fold_left assign before (typed_base c))) eqn:Hf;
      [ | reflexivity].
    assert (Hin : dict_find HNone (fold_left assign before (typed_base c)) <> None)
      by congruence.
    apply dict_find_in in Hin. destruct Hin as [k [Hk Hh]].
    apply typed_keys_are_strings in Hk. destruct Hk as [s ->]. discriminate Hh. }
  unfold personalize_step. rewrite Hinterest. cbn [rbind dict_contains hash_key].
  rewrite Hnone. cbn [rbind].
  rewrite (foldM_map_ok _ _ assign) by apply personalize_step_typed.
  reflexivity.
Qed.

Lemma profile_without_interest_is_skipped_witness :
  fst (generate_outputs (env_replying CompletionNotJSON)
         (categorized_value (labelled [] [hit_a] [])) (map hit_value [])
         (VList [VDict [(VStr "name", VStr "Ada")]])) =
  Ok (typed_outputs (labelled [] [hit_a] []) [] []).
Proof.
  rewrite <- (generate_outputs_typed (env_replying CompletionNotJSON)).
  apply (profile_without_interest_is_skipped (env_replying CompletionNotJSON)
           (labelled [] [hit_a] []) [] [] [] [(VStr "name", VStr "Ada")]).
  reflexivity.
Defined.

(** ** The knowledge base and the categories *)

Lemma typed_base_from_entries (c : CategorizedResult) (acc : dict) :
  NoDup (map fst c) ->
  (forall k, In k (map fst c) -> dict_find (HStr k) acc = None) ->
  fold_left store_bucket c acc = acc ++ map base_entry c.
Proof.
  revert acc. induction c as [ | kv c IH]; intros acc Hnd Hfresh; simpl.
  - symmetry. apply app_nil_r.
  - simpl in Hnd. apply NoDup_cons_iff in Hnd. destruct Hnd as [Hkv Hnd].
    unfold store_bucket at 2.
    rewrite dict_store_absent by (apply Hfresh; simpl; tauto).
    rewrite IH; [rewrite <- app_assoc; reflexivity | exact Hnd | ].
    intros k Hk.
    assert (Hne : k <> fst kv) by (intros ->; tauto).
    destruct (dict_find (HStr k) (acc ++ [(VStr (fst kv), snippets_value (snd kv))]))
      eqn:Hf; [ | reflexivity].
    exfalso.
    assert (Hin : In (VStr k)
                    (keys (acc ++ [(VStr (fst kv), snippets_value (snd kv))])))
      by (apply dict_find_str_in; congruence).
    unfold keys in Hin. rewrite map_app, in_app_iff in Hin. simpl in Hin.
    destruct Hin as [Hin | [Hin | []]]; [ | congruence].
    apply dict_find_str_in in Hin. apply Hin, Hfresh. simpl. tauto.
Qed.

Lemma typed_base_entries (c : CategorizedResult) :
  NoDup (map fst c) -> typed_base c = map base_entry c.
Proof.
  intro Hnd. unfold typed_base.
  rewrite typed_base_from_entries; [reflexivity | exact Hnd | reflexivity].
Qed.

(** X14: without profiles ([None], an empty list, or any other false
    value) the knowledge base has one entry per bucket of the mapping, in
    the order of the mapping, holding the snippets of all the hits of the
    bucket: not five as the newsletter, nor two as a workshop session. *)
Theorem knowledge_base_without_profiles (E : env) (c : CategorizedResult)
    (raw : list SearchHit) (user_profiles : value) :
  NoDup (map fst c) ->
  truthy user_profiles = false ->
  exists outputs,
    fst (generate_outputs E (categorized_value c) (map hit_value raw)
           user_profiles) = Ok outputs /\
    view outputs "coaching_bot" "knowledge_base" =
    Ok (VDict (map (fun kv => (VStr (fst kv),
                               VList (map VStr (map snippet (snd kv))))) c)).
Proof.
  intros Hnd Hfalse.
  rewrite generate_outputs_result, build_outputs_with_knowledge.
  unfold personalize. rewrite Hfalse. cbn [rbind].
  eexists. split; [reflexivity | ].
  rewrite typed_base_entries by exact Hnd. reflexivity.
Qed.

Lemma knowledge_base_without_profiles_witness :
  exists outputs,
    fst (generate_outputs (env_replying CompletionNotJSON)
           (categorized_value reordered) (map hit_value []) VNone) = Ok outputs /\
    view outputs "coaching_bot" "knowledge_base" =
    Ok (VDict [(VStr "health", VList [VStr "walk daily"]);
               (VStr "productivity", VList [VStr "batch email"]);
               (VStr "creativity", VList [])]).
Proof.
  apply (knowledge_base_without_profiles (env_replying CompletionNotJSON)
           reordered [] VNone).
  - repeat constructor; simpl; intuition discriminate.
  - reflexivity.
Defined.

Lemma assign_keeps_other_entries (ps : list UserProfile) (kb : dict) (k : string) :
  (forall p, In p ps -> profile_id p <> k) ->
  dict_find (HStr k) (fold_left assign ps kb) = dict_find (HStr k) kb.
Proof.
  revert kb. induction ps as [ | p ps IH]; intros kb Hids; simpl; [reflexivity | ].
  rewrite IH by (intros q Hq; apply Hids; simpl; tauto).
  unfold assign. destruct (dict_find (HStr (interest p)) kb); [ | reflexivity].
  apply dict_find_store_other; [reflexivity | ].
  intro H. injection H as H. apply (Hids p); [simpl; tauto | congruence].
Qed.

(** X15: personalization leaves the category entries alone unless a
    profile's id is itself a key of the mapping: when no id is, every key
    of the mapping still maps to the snippets of its own bucket, whatever
    the interests are. *)
Theorem category_entries_survive_profiles (E : env) (c : CategorizedResult)
    (raw : list SearchHit) (ps : list UserProfile) :
  NoDup (map fst c) ->
  (forall p, In p ps -> ~ In (profile_id p) (map fst c)) ->
  exists outputs kb,
    fst (generate_outputs E (categorized_value c) (map hit_value raw)
           (profiles_value ps)) = Ok outputs /\
    view outputs "coaching_bot" "knowledge_base" = Ok (VDict kb) /\
    forall k hs, In (k, hs) c ->
                 dict_find (HStr k) kb = Some (VList (map VStr (map snippet hs))).
Proof.
  intros Hnd Hids.
  exists (typed_outputs c raw ps), (fold_left assign ps (typed_base c)).
  split; [apply generate_outputs_typed | ].
  split; [apply view_knowledge_base | ].
  intros k hs Hin.
  rewrite assign_keeps_other_entries.
  - apply find_typed_base; assumption.
  - intros p Hp Heq. apply (Hids p Hp). rewrite Heq.
    apply in_map_iff. exists (k, hs). split; [reflexivity | exact Hin].
Qed.

Lemma category_entries_survive_profiles_witness :
  exists outputs kb,
    fst (generate_outputs (env_replying CompletionNotJSON)
           (categorized_value (labelled [] [hit_a] [])) (map hit_value [])
           (profiles_value chained_profiles)) = Ok outputs /\
    view outputs "coaching_bot" "knowledge_base" = Ok (VDict kb) /\
    dict_find (HStr "health") kb = Some (VList [VStr "walk daily"]).
Proof.
  destruct (category_entries_survive_profiles (env_replying CompletionNotJSON)
              (labelled [] [hit_a] []) [] chained_profiles)
    as [outputs [kb [Hout [Hkb Hentries]]]].
  - repeat constructor; simpl; intuition discriminate.
  - intros p [<- | [<- | []]]; simpl; intuition discriminate.
  - exists outputs, kb. split; [exact Hout | ]. split; [exact Hkb | ].
    apply (Hentries "health" [hit_a]). simpl. tauto.
Defined.

(** ** Independence of the views *)

(** X16: the profiles only reach the coaching-bot view.  Two projections of
    the same mapping and raw hits with different profiles agree on the
    newsletter, the tool vault, the forum and the workshops. *)
Theorem profiles_only_affect_coaching_bot (E E' : env) (categorized : value)
    (raw_data : list value) (profiles profiles' outputs outputs' : value) :
  fst (generate_outputs E categorized raw_data profiles) = Ok outputs ->
  fst (generate_outputs E' categorized raw_data profiles') = Ok outputs' ->
  view outputs "newsletter" "content" = view outputs' "newsletter" "content" /\
  view outputs "tool_vault" "updates" = view outputs' "tool_vault" "updates" /\
  view outputs "forum" "topics" = view outputs' "forum" "topics" /\
  view outputs "workshops" "sessions" = view outputs' "workshops" "sessions".
Proof.
  rewrite !generate_outputs_result. unfold build_outputs. intros H H'.
  destruct (all_hacks categorized) as [hacks | e]; [ | discriminate H].
  cbn [rbind] in H, H'.
  destruct (mapM snippet_of (firstn 5 hacks)) as [content | e];
    [ | discriminate H].
  cbn [rbind] in H, H'.
  destruct (tool_mentions categorized) as [tools | e]; [ | discriminate H].
  cbn [rbind] in H, H'.
  destruct (mapM title_of (firstn 3 raw_data)) as [topics | e];
    [ | discriminate H].
  cbn [rbind] in H, H'.
  destruct (base_knowledge categorized) as [base | e]; [ | discriminate H].
  cbn [rbind] in H, H'.
  destruct (personalize base profiles) as [kb | e]; [ | discriminate H].
  destruct (personalize base profiles') as [kb' | e]; [ | discriminate H'].
  cbn [rbind] in H, H'.
  destruct (workshop_sessions categorized) as [sessions | e];
    [ | discriminate H].
  cbn [rbind] in H, H'. injection H as <-. injection H' as <-.
  repeat split; reflexivity.
Qed.

Lemma profiles_only_affect_coaching_bot_witness :
  view (typed_outputs (labelled [] [hit_a] []) [sample_hit] chained_profiles)
    "workshops" "sessions" =
  view (typed_outputs (labelled [] [hit_a] []) [sample_hit] [])
    "workshops" "sessions".
Proof.
  apply (profiles_only_affect_coaching_bot
           (env_replying CompletionNotJSON) (env_replying CompletionNotJSON)
           (categorized_value (labelled [] [hit_a] []))
           (map hit_value [sample_hit])
           (profiles_value chained_profiles) (profiles_value []));
    reflexivity.
Defined.

(** ** Malformed hits *)





(** ** Single attempts *)

(** X18: each stage asks its collaborator at most once, also after a
    failure: [web_search] makes one search with the query and limit it was
    given, and [grok_process_raw_data] makes one request, carrying the
    prompt built from the hits, exactly when there are hits and
    [json.dumps] could serialize them. *)
Theorem stages_make_one_attempt (E : env) (query : string) (n : Z)
    (raw_data : list value) :
  filter is_call (snd (web_search E query n)) = [EvSearch query n] /\
  filter is_call (snd (grok_process_raw_data E raw_data)) =
  match raw_data with
  | [] => []
  | _ :: _ =>
      match json_dumps E raw_data with
      | Ok serialized => [EvChat (user_prompt serialized)]
      | Raise _ => []
      end
  end.
Proof.
  split; [apply web_search_calls | apply grok_process_raw_data_calls].
Qed.
